(** * Order import and platform info services

    A shallow embedding of [ImportService] (apps/api/src/app/import/import.service.ts)
    and [InfoService] (apps/api/src/app/info/info.service.ts), and the properties
    their specification states about them.

    Both services are sequences of awaited calls on injected collaborators.
    Each method becomes a function in a state-and-exception monad: the state
    holds what the collaborators store (order table, cache) together with the
    list of collaborator calls made so far, and a thrown JavaScript error is
    the left summand of the result. *)

From Stdlib Require Import ZArith Ascii String PrimFloat Uint63 FloatOps SpecFloat.
From stdpp Require Import base option list gmap strings sorting pretty.

Local Open Scope Z_scope.

(** ** JavaScript values shared by the two services *)

(** A JavaScript [number] is a binary64 float; [===] on numbers is IEEE
    equality ([NaN] differs from itself, the two zeros are equal). *)
Definition number : Type := float.
Definition strictEq (a b : number) : bool := PrimFloat.eqb a b.

(** A [Date] holds a time value: milliseconds since the epoch, or [NaN] for
    an Invalid Date, which is [None] here. *)
Definition JsDate : Type := option Z.

(** Thrown values. [Error] is what the services throw themselves, the other
    two come from the runtime ([JSON.parse], destructuring of [null]);
    [Rejection] is the reason of a rejected outbound request. *)
Inductive JsError : Type :=
  | Error (message : string)
  | SyntaxError (message : string)
  | TypeError (message : string)
  | Rejection (reason : string).

(** The double quote character, for the messages that quote a value. *)
Definition dquote : string :=
  String (Ascii.Ascii false true false false false true false false) EmptyString.

(** ** Property reads on plain objects

    The names every plain object inherits from [Object.prototype]: the
    members of the language standard and the accessors of its annex on web
    compatibility. *)
Definition objectPrototypeMembers : list string :=
  ["constructor"; "__defineGetter__"; "__defineSetter__"; "hasOwnProperty";
   "__lookupGetter__"; "__lookupSetter__"; "isPrototypeOf";
   "propertyIsEnumerable"; "toString"; "valueOf"; "__proto__";
   "toLocaleString"].

(** [object[key] === undefined] for a plain object with the own entries
    [entries]: a property read takes the own entry and, without one, the
    member of [Object.prototype] of that name, a function or the prototype
    itself; only a name that is neither reads as [undefined]. *)
Definition readsUndefined {V} (entries : gmap string V) (key : string) : bool :=
  bool_decide (entries !! key = None)
  && bool_decide (key ∉ objectPrototypeMembers).

(** ** The monad of awaited calls

    [Async W A] is a computation over a world [W] that either returns an [A]
    or throws; the world reached so far is kept in both cases, as a thrown
    error does not undo earlier effects. *)
Definition Async (W A : Type) : Type := W -> (JsError + A) * W.

Definition ret {W A} (a : A) : Async W A := fun w => (inr a, w).

Definition throw {W A} (e : JsError) : Async W A := fun w => (inl e, w).

Definition bind {W A B} (m : Async W A) (k : A -> Async W B) : Async W B :=
  fun w =>
    match m w with
    | (inr a, w') => k a w'
    | (inl e, w') => (inl e, w')
    end.

(** [try { body } catch (error) { handler }] *)
Definition tryCatch {W A} (body : Async W A) (handler : JsError -> Async W A)
  : Async W A :=
  fun w =>
    match body w with
    | (inr a, w') => (inr a, w')
    | (inl e, w') => handler e w'
    end.

#[global] Instance async_ret {W} : MRet (Async W) := fun A => @ret W A.
#[global] Instance async_bind {W} : MBind (Async W) :=
  fun A B k m => @bind W A B m k.

(** [for (const x of xs) { await body(x) }] *)
Fixpoint forOf {W A} (body : A -> Async W unit) (xs : list A) : Async W unit :=
  match xs with
  | [] => ret tt
  | x :: rest => body x;; forOf body rest
  end.

(** [for (const [index, x] of xs.entries()) { await body(index, x) }],
    started at [index]. *)
Fixpoint forOfEntries {W A} (body : nat -> A -> Async W unit)
    (index : nat) (xs : list A) : Async W unit :=
  match xs with
  | [] => ret tt
  | x :: rest => body index x;; forOfEntries body (S index) rest
  end.

(** ** date-fns *)

Section DateFns.
(** [startOfDay] on time values: local midnight of the day the instant
    falls in, which depends on the time zone of the process. *)
Variable startOfDay : Z -> Z.

(** [isSameDay(left, right)]: the two starts of day have the same time
    value; an Invalid Date has time value [NaN], equal to nothing. *)
Definition isSameDay (dateLeft dateRight : JsDate) : bool :=
  match dateLeft, dateRight with
  | Some l, Some r => startOfDay l =? startOfDay r
  | _, _ => false
  end.
End DateFns.

(** * ImportService *)

Module ImportService.

(** An incoming order ([Partial<Order>] on the wire): the fields the
    service destructures, each taken to be present. The enumerations
    (currency, data source, type) are strings at run time, and [date] still
    is the ISO string of the request body. *)
Record ImportOrder : Type := {
  accountId : string;
  currency : string;
  dataSource : string;
  date : string;
  fee : number;
  quantity : number;
  symbol : string;
  type : string;
  unitPrice : number
}.

(** The argument of [orderService.createOrder]. *)
Module OrderCreateInput.
Record IdUserId : Type := { userId : string; id : string }.
Record t : Type := {
  Account : IdUserId;          (* Account: { connect: { id_userId } } *)
  currency : string;
  dataSource : string;
  fee : number;
  quantity : number;
  symbol : string;
  type : string;
  unitPrice : number;
  date : JsDate;
  User : string                (* User: { connect: { id } } *)
}.
End OrderCreateInput.

(** Modelled from the spec: the [Order] record of the generated database
    client is not among the sources; a persisted order has the fields of
    the spec's data model, the date being a [Date]. *)
Module Order.
Record t : Type := {
  accountId : string;
  currency : string;
  dataSource : string;
  date : JsDate;
  fee : number;
  quantity : number;
  symbol : string;
  type : string;
  unitPrice : number;
  userId : string
}.
End Order.

(** Calls on the collaborators, in the order they are made. *)
Inductive Call : Type :=
  | OrdersCall (userId : string)
  | DataProviderGetCall (items : list (string * string))
  | CreateOrderCall (data : OrderCreateInput.t).

Record World : Type := {
  orderTable : list Order.t;
  calls : list Call
}.

Definition called (c : Call) (w : World) : World :=
  {| orderTable := orderTable w; calls := calls w ++ [c] |}.

Definition isCreateOrderCall (c : Call) : bool :=
  match c with CreateOrderCall _ => true | _ => false end.

(** *** The persistence service *)

(** [orderBy: { date: 'desc' }]: newest first. *)
Definition newerFirst (a b : Order.t) : Prop :=
  match Order.date a, Order.date b with
  | Some ta, Some tb => tb <= ta
  | _, _ => True
  end.

#[global] Instance newerFirst_dec a b : Decision (newerFirst a b).
Proof.
  unfold newerFirst.
  destruct (Order.date a), (Order.date b); apply _.
Defined.

(** Modelled from the spec: OrderService is not among the sources; its
    contract is "list orders for user, sorted by date desc". *)
Definition orderService_orders (userId : string) : Async World (list Order.t) :=
  fun w =>
    (inr (merge_sort newerFirst
            (filter (fun o => Order.userId o = userId) (orderTable w))),
     called (OrdersCall userId) w).

(** The record a create input gives rise to. *)
Definition orderOf (data : OrderCreateInput.t) : Order.t :=
  {| Order.accountId := OrderCreateInput.id (OrderCreateInput.Account data);
     Order.currency := OrderCreateInput.currency data;
     Order.dataSource := OrderCreateInput.dataSource data;
     Order.date := OrderCreateInput.date data;
     Order.fee := OrderCreateInput.fee data;
     Order.quantity := OrderCreateInput.quantity data;
     Order.symbol := OrderCreateInput.symbol data;
     Order.type := OrderCreateInput.type data;
     Order.unitPrice := OrderCreateInput.unitPrice data;
     Order.userId := OrderCreateInput.User data |}.

(** Modelled from the spec: OrderService is not among the sources; its
    contract is "create order linked to account+user". The new record is
    appended to the table. This is the service whose writes all succeed;
    [orderService_createOrder_fallible] below is the one that may throw. *)
Definition orderService_createOrder (data : OrderCreateInput.t)
  : Async World Order.t :=
  fun w =>
    (inr (orderOf data),
     {| orderTable := orderTable w ++ [orderOf data];
        calls := calls w ++ [CreateOrderCall data] |}).

(** Modelled from the spec: "if persistence fails partway through the batch,
    earlier writes in the same batch remain committed". [createOrder] may
    throw: [refusal] tells, from the store and the input, whether it does
    and with what error; an order it refuses is not stored. *)
Definition orderService_createOrder_fallible
    (refusal : World -> OrderCreateInput.t -> option JsError)
    (data : OrderCreateInput.t) : Async World Order.t :=
  fun w =>
    if refusal w data is Some e
    then (inl e, called (CreateOrderCall data) w)
    else orderService_createOrder data w.

Section Service.
(** date-fns, as far as the service uses it. *)
Variable parseISO : string -> JsDate.
Variable startOfDay : Z -> Z.

(** The data provider, which is not among the sources: [get(items)] yields
    a plain object keyed by symbol, given here by the map of its own
    entries. *)
Context {DataProviderResponse : Type}.
Variable dataProviderGet :
  list (string * string) -> gmap string DataProviderResponse.

Definition dataProviderService_get (items : list (string * string))
  : Async World (gmap string DataProviderResponse) :=
  fun w => (inr (dataProviderGet items), called (DataProviderGetCall items) w).

Definition MAX_ORDERS_TO_IMPORT : nat := 20.

(** The three errors of validation. *)
Definition BatchTooLarge : JsError := Error "Too many transactions".

Definition DuplicateOrder (index : nat) : JsError :=
  Error ("orders." +:+ pretty index +:+ " is a duplicate transaction").

Definition InvalidSymbol (index : nat) (symbol dataSource : string) : JsError :=
  Error ("orders." +:+ pretty index +:+ ".symbol (" +:+ dquote +:+ symbol
         +:+ dquote +:+ ") is not valid for the specified data source ("
         +:+ dquote +:+ dataSource +:+ dquote +:+ ")").

(** The predicate of [existingOrders.find] for one incoming order. *)
Definition isDuplicateOf (o : ImportOrder) (order : Order.t) : bool :=
  bool_decide (Order.currency order = currency o)
  && bool_decide (Order.dataSource order = dataSource o)
  && isSameDay startOfDay (Order.date order) (parseISO (date o))
  && strictEq (Order.fee order) (fee o)
  && strictEq (Order.quantity order) (quantity o)
  && bool_decide (Order.symbol order = symbol o)
  && bool_decide (Order.type order = type o)
  && strictEq (Order.unitPrice order) (unitPrice o).

Definition validateOrders (orders : list ImportOrder) (userId : string)
  : Async World unit :=
  if bool_decide (MAX_ORDERS_TO_IMPORT < length orders)%nat
  then throw BatchTooLarge
  else
    existingOrders ← orderService_orders userId;
    forOfEntries
      (fun index o =>
         let duplicateOrder := find (isDuplicateOf o) existingOrders in
         if duplicateOrder is Some _
         then throw (DuplicateOrder index)
         else
           result ← dataProviderService_get [(dataSource o, symbol o)];
           if readsUndefined result (symbol o)
           then throw (InvalidSymbol index (symbol o) (dataSource o))
           else ret tt)
      0%nat orders.

Definition createInput (userId : string) (o : ImportOrder)
  : OrderCreateInput.t :=
  {| OrderCreateInput.Account :=
       {| OrderCreateInput.userId := userId;
          OrderCreateInput.id := accountId o |};
     OrderCreateInput.currency := currency o;
     OrderCreateInput.dataSource := dataSource o;
     OrderCreateInput.fee := fee o;
     OrderCreateInput.quantity := quantity o;
     OrderCreateInput.symbol := symbol o;
     OrderCreateInput.type := type o;
     OrderCreateInput.unitPrice := unitPrice o;
     OrderCreateInput.date := parseISO (date o);
     OrderCreateInput.User := userId |}.

Definition import (orders : list ImportOrder) (userId : string)
  : Async World unit :=
  validateOrders orders userId;;
  forOf (fun o => orderService_createOrder (createInput userId o);; ret tt)
        orders.

(** [import] over a persistence service that may throw. *)
Definition import_fallible
    (refusal : World -> OrderCreateInput.t -> option JsError)
    (orders : list ImportOrder) (userId : string) : Async World unit :=
  validateOrders orders userId;;
  forOf (fun o =>
           orderService_createOrder_fallible refusal (createInput userId o);;
           ret tt)
        orders.

(** *** Vocabulary of the properties *)

(** The incoming order [o] agrees with the persisted [order] on the
    deduplication tuple: currency, data source, fee, quantity, symbol, type,
    unit price, and the calendar day of the date. *)
Definition agrees (o : ImportOrder) (order : Order.t) : Prop :=
  Order.currency order = currency o
  /\ Order.dataSource order = dataSource o
  /\ strictEq (Order.fee order) (fee o) = true
  /\ strictEq (Order.quantity order) (quantity o) = true
  /\ Order.symbol order = symbol o
  /\ Order.type order = type o
  /\ strictEq (Order.unitPrice order) (unitPrice o) = true
  /\ isSameDay startOfDay (Order.date order) (parseISO (date o)) = true.

(** [o] duplicates an order already persisted for [userId]. *)
Definition duplicatesExisting (w : World) (userId : string) (o : ImportOrder)
  : Prop :=
  exists order,
    order ∈ orderTable w /\ Order.userId order = userId /\ agrees o order.

(** The data provider has an entry under the symbol of [o]. *)
Definition knownSymbol (o : ImportOrder) : Prop :=
  is_Some (dataProviderGet [(dataSource o, symbol o)] !! symbol o).

(** The symbol check lets [o] through: reading the lookup result under the
    symbol of [o] does not give [undefined]. *)
Definition symbolAccepted (o : ImportOrder) : Prop :=
  readsUndefined (dataProviderGet [(dataSource o, symbol o)]) (symbol o) = false.

(** The lookup validation makes for [o]. *)
Definition lookupCall (o : ImportOrder) : Call :=
  DataProviderGetCall [(dataSource o, symbol o)].

(** Two persisted orders share the deduplication tuple. *)
Definition sameDedupTuple (a b : Order.t) : Prop :=
  Order.currency a = Order.currency b
  /\ Order.dataSource a = Order.dataSource b
  /\ strictEq (Order.fee a) (Order.fee b) = true
  /\ strictEq (Order.quantity a) (Order.quantity b) = true
  /\ Order.symbol a = Order.symbol b
  /\ Order.type a = Order.type b
  /\ strictEq (Order.unitPrice a) (Order.unitPrice b) = true
  /\ isSameDay startOfDay (Order.date a) (Order.date b) = true.

(** The invariant of the order table: no two orders of one user share the
    deduplication tuple. *)
Definition NoDuplicateOrders (table : list Order.t) : Prop :=
  forall (i j : nat) (a b : Order.t),
    (i < j)%nat -> table !! i = Some a -> table !! j = Some b ->
    Order.userId a = Order.userId b -> ~ sameDedupTuple a b.

(** Two incoming orders share the deduplication tuple. *)
Definition candidatesShareTuple (o1 o2 : ImportOrder) : Prop :=
  currency o1 = currency o2
  /\ dataSource o1 = dataSource o2
  /\ strictEq (fee o1) (fee o2) = true
  /\ strictEq (quantity o1) (quantity o2) = true
  /\ symbol o1 = symbol o2
  /\ type o1 = type o2
  /\ strictEq (unitPrice o1) (unitPrice o2) = true
  /\ isSameDay startOfDay (parseISO (date o1)) (parseISO (date o2)) = true.

End Service.

End ImportService.

(** * InfoService *)

(** ** JSON *)

(** The values [JSON.parse] produces. An object is the list of its own
    properties in insertion order; a property holding [undefined] and an
    absent property read the same and serialise the same, so an object never
    lists a property holding [undefined]. *)
#[warnings="-register-all"]
Inductive JsValue : Type :=
  | JNull
  | JBool (b : bool)
  | JNumber (n : number)
  | JString (s : string)
  | JArray (items : list JsValue)
  | JObject (props : list (string * JsValue)).

(** [if (value)] *)
Definition truthy (value : JsValue) : bool :=
  match value with
  | JNull => false
  | JBool b => b
  | JNumber n => negb (PrimFloat.eqb n 0%float) && PrimFloat.eqb n n
  | JString EmptyString => false
  | JString (String _ _) => true
  | JArray _ => true
  | JObject _ => true
  end.

(** [props[key]], [None] for [undefined]. *)
Fixpoint ownProperty (key : string) (props : list (string * JsValue))
  : option JsValue :=
  match props with
  | [] => None
  | (k, v) :: rest => if bool_decide (k = key) then Some v else ownProperty key rest
  end.

(** A list or string length as a [number]. *)
Definition numberOfNat (n : nat) : number :=
  PrimFloat.of_uint63 (Uint63.of_Z (Z.of_nat n)).

(** An object literal whose listed values may be [undefined]. *)
Definition objectLiteral (fields : list (string * option JsValue)) : JsValue :=
  JObject (omap (fun '(k, v) => pair k <$> v) fields).

Module InfoService.

(** The options [configurationService.get] is asked for. *)
Record Configuration : Type := {
  ENABLE_FEATURE_BLOG : bool;
  ENABLE_FEATURE_IMPORT : bool;
  ENABLE_FEATURE_SOCIAL_LOGIN : bool;
  ENABLE_FEATURE_STATISTICS : bool;
  ENABLE_FEATURE_SUBSCRIPTION : bool;
  STRIPE_PUBLIC_KEY : string
}.

(** The permission tags of [@ghostfolio/common/permissions] the service
    pushes; the constant itself is not among the sources. *)
Record Permissions : Type := {
  enableBlog : string;
  enableImport : string;
  enableSocialLogin : string;
  enableStatistics : string;
  enableSubscription : string
}.

(** [select: { id: true, name: true }] *)
Record Platform : Type := { id : string; name : string }.

(** The [where] clauses of the two user counts, relative to the time of
    the call: users that have analytics, and whose analytics were updated,
    resp. who were created, after [subDays(new Date(), aDays)]. *)
Inductive UserWhere : Type :=
  | AnalyticsUpdatedAfterDaysAgo (aDays : nat)
  | CreatedAfterDaysAgo (aDays : nat).

(** What the injected collaborators answer at the time of one request.
    None of them is among the sources, and nothing of this is changed by
    the service. Between two requests the answers may change (users sign
    up, GitHub goes out of reach, the signer stamps another issue time on
    the token): two requests that follow each other are given a record
    each. *)
Record Services : Type := {
  configurationService : Configuration;
  (* prismaService.platform.findMany, ordered by name ascending *)
  platform_findMany : list Platform;
  (* prismaService.user.count *)
  user_count : UserWhere -> number;
  (* prismaService.property, by its unique key *)
  property : gmap string string;
  exchangeRateDataService_getCurrencies : list string;
  dataGatheringService_getLastDataGathering : option JsDate;
  dataProviderService_getPrimaryDataSource : string;
  (* jwtService.sign({ id }) *)
  jwtService_sign : string -> string;
  (* bent(url, 'GET', 'json', 200, headers)(): the decoded body, or the
     rejection for any other status or an undecodable body *)
  httpGetJson : string -> JsError + JsValue
}.

(** The awaited calls on the collaborators and the log entries, in the
    order they are made. The synchronous getters (configuration,
    currencies, token, primary data source) only read. *)
Inductive Call : Type :=
  | PlatformFindMany
  | GetLastDataGathering
  | CacheGet (key : string)
  | CacheSet (key value : string)
  | UserCount (where_ : UserWhere)
  | HttpGet (url : string)
  | LoggerError (error : JsError)
  | PropertyFindUnique (key : string).

Record World : Type := {
  cache : gmap string string;
  calls : list Call
}.

Definition called (c : Call) (w : World) : World :=
  {| cache := cache w; calls := calls w ++ [c] |}.

(** A call on a collaborator that answers [a] and changes nothing. *)
Definition call {A} (c : Call) (a : A) : Async World A :=
  fun w => (inr a, called c w).

(** A database count or an outbound request. *)
Definition isCounterCall (c : Call) : bool :=
  match c with UserCount _ | HttpGet _ => true | _ => false end.

Record InfoItem : Type := {
  stripePublicKey : option string;
  globalPermissions : list string;
  platforms : list Platform;
  currencies : list string;
  demoAuthToken : string;
  lastDataGathering : option JsDate;
  primaryDataSource : string;
  statistics : option JsValue;
  subscriptions : option (list JsValue)
}.

Section Service.
(** [JSON.parse] of a text, [None] when it throws a [SyntaxError], and
    [JSON.stringify]. *)
Variable JSON_parse : string -> option JsValue.
Variable JSON_stringify : JsValue -> string.

Variable permissions : Permissions.
Variable this : Services.

Definition DEMO_USER_ID : string := "9b112b4d-3b7d-4bad-9bdd-3b0f7b4dac2f".
Definition CACHE_KEY_STATISTICS : string := "STATISTICS".

Definition gitHubContributorsUrl : string :=
  "https://api.github.com/repos/ghostfolio/ghostfolio/contributors".
Definition gitHubRepositoryUrl : string :=
  "https://api.github.com/repos/ghostfolio/ghostfolio".

(** [JSON.parse(text)] as a call that may throw. *)
Definition jsonParse (text : string) : Async World JsValue :=
  match JSON_parse text with
  | Some value => ret value
  | None => throw (SyntaxError "Unexpected token in JSON")
  end.

(** Modelled from the spec: RedisCacheService is not among the sources; its
    contract is "get/set by string key with string values". [get] answers
    the stored text, or [null] for a key that is not stored. *)
Definition redisCacheService_get (key : string) : Async World (option string) :=
  fun w => (inr (cache w !! key), called (CacheGet key) w).

(** Modelled from the spec: RedisCacheService is not among the sources;
    [set] stores the text under the key. *)
Definition redisCacheService_set (key value : string) : Async World unit :=
  fun w =>
    (inr tt,
     {| cache := <[key := value]> (cache w);
        calls := calls w ++ [CacheSet key value] |}).

(** [JSON.parse] of what the cache answered. The text of [null] is
    ["null"], which parses to [null]; were the answer [undefined],
    [JSON.parse] would throw a [SyntaxError] inside the [try] block: the
    block falls through in both cases. *)
Definition jsonParseCached (cached : option string) : Async World JsValue :=
  match cached with
  | Some text => jsonParse text
  | None => ret JNull
  end.

Definition httpGet (url : string) : Async World JsValue :=
  fun w =>
    match httpGetJson this url with
    | inr body => (inr body, called (HttpGet url) w)
    | inl reason => (inl reason, called (HttpGet url) w)
    end.

Definition Logger_error (error : JsError) : Async World unit :=
  call (LoggerError error) tt.

Definition countActiveUsers (aDays : nat) : Async World number :=
  let where_ := AnalyticsUpdatedAfterDaysAgo aDays in
  call (UserCount where_) (user_count this where_).

Definition countNewUsers (aDays : nat) : Async World number :=
  let where_ := CreatedAfterDaysAgo aDays in
  call (UserCount where_) (user_count this where_).

(** [contributors?.length]. The length of a string counts UTF-16 code
    units, which are the characters of an ASCII string. *)
Definition optionalLength (contributors : JsValue) : option JsValue :=
  match contributors with
  | JNull => None
  | JArray items => Some (JNumber (numberOfNat (length items)))
  | JString s => Some (JNumber (numberOfNat (String.length s)))
  | JObject props => ownProperty "length" props
  | JBool _ | JNumber _ => None
  end.

Definition countGitHubContributors : Async World (option JsValue) :=
  tryCatch
    (contributors ← httpGet gitHubContributorsUrl;
     ret (optionalLength contributors))
    (fun error => Logger_error error;; ret None).

(** [const { stargazers_count } = body] *)
Definition destructure_stargazers_count (body : JsValue)
  : Async World (option JsValue) :=
  match body with
  | JNull =>
      throw (TypeError "Cannot destructure property 'stargazers_count' of null")
  | JObject props => ret (ownProperty "stargazers_count" props)
  | JBool _ | JNumber _ | JString _ | JArray _ => ret None
  end.

Definition countGitHubStargazers : Async World (option JsValue) :=
  tryCatch
    (body ← httpGet gitHubRepositoryUrl;
     stargazers_count ← destructure_stargazers_count body;
     ret stargazers_count)
    (fun error => Logger_error error;; ret None).

Definition getDemoAuthToken : string :=
  jwtService_sign this DEMO_USER_ID.

(** [lastDataGathering ?? null]; [None] is [null]. *)
Definition getLastDataGathering : Async World (option JsDate) :=
  call GetLastDataGathering (dataGatheringService_getLastDataGathering this).

(** The statistics object literal. *)
Definition statisticsObject
    (activeUsers1d activeUsers7d activeUsers30d : number)
    (gitHubContributors gitHubStargazers : option JsValue)
    (newUsers30d : number) : JsValue :=
  objectLiteral
    [("activeUsers1d", Some (JNumber activeUsers1d));
     ("activeUsers7d", Some (JNumber activeUsers7d));
     ("activeUsers30d", Some (JNumber activeUsers30d));
     ("gitHubContributors", gitHubContributors);
     ("gitHubStargazers", gitHubStargazers);
     ("newUsers30d", Some (JNumber newUsers30d))].

(** [None] is [undefined]. The [try] block either returns from the
    method ([Some]) or falls through ([None]), also when it throws. *)
Definition getStatistics : Async World (option JsValue) :=
  if negb (ENABLE_FEATURE_STATISTICS (configurationService this))
  then ret None
  else
    returned ←
      tryCatch
        (cached ← redisCacheService_get CACHE_KEY_STATISTICS;
         statistics ← jsonParseCached cached;
         if truthy statistics then ret (Some statistics) else ret None)
        (fun _ => ret None);
    match returned with
    | Some statistics => ret (Some statistics)
    | None =>
        activeUsers1d ← countActiveUsers 1;
        activeUsers7d ← countActiveUsers 7;
        activeUsers30d ← countActiveUsers 30;
        newUsers30d ← countNewUsers 30;
        gitHubContributors ← countGitHubContributors;
        gitHubStargazers ← countGitHubStargazers;
        let statistics :=
          statisticsObject activeUsers1d activeUsers7d activeUsers30d
            gitHubContributors gitHubStargazers newUsers30d in
        redisCacheService_set CACHE_KEY_STATISTICS (JSON_stringify statistics);;
        ret (Some statistics)
    end.

Definition property_findUnique (key : string) : Async World (option string) :=
  call (PropertyFindUnique key) (property this !! key).

(** [None] is [undefined]. *)
Definition getSubscriptions : Async World (option (list JsValue)) :=
  if negb (ENABLE_FEATURE_SUBSCRIPTION (configurationService this))
  then ret None
  else
    stripeConfig ← property_findUnique "STRIPE_CONFIG";
    match stripeConfig with
    | Some value =>
        subscription ← jsonParse value;
        ret (Some [subscription])
    | None => ret (Some [])
    end.

(** [if (flag) { globalPermissions.push(tag) }] *)
Definition pushIf (flag : bool) (tag : string) (tags : list string)
  : list string :=
  if flag then tags ++ [tag] else tags.

Definition get : Async World InfoItem :=
  platforms ← call PlatformFindMany (platform_findMany this);
  let config := configurationService this in
  let globalPermissions := [] in
  let globalPermissions :=
    pushIf (ENABLE_FEATURE_BLOG config) (enableBlog permissions)
      globalPermissions in
  let globalPermissions :=
    pushIf (ENABLE_FEATURE_IMPORT config) (enableImport permissions)
      globalPermissions in
  let globalPermissions :=
    pushIf (ENABLE_FEATURE_SOCIAL_LOGIN config) (enableSocialLogin permissions)
      globalPermissions in
  let globalPermissions :=
    pushIf (ENABLE_FEATURE_STATISTICS config) (enableStatistics permissions)
      globalPermissions in
  let globalPermissions :=
    pushIf (ENABLE_FEATURE_SUBSCRIPTION config) (enableSubscription permissions)
      globalPermissions in
  let info_stripePublicKey :=
    if ENABLE_FEATURE_SUBSCRIPTION config
    then Some (STRIPE_PUBLIC_KEY config) else None in
  let currencies := exchangeRateDataService_getCurrencies this in
  let demoAuthToken := getDemoAuthToken in
  lastDataGathering ← getLastDataGathering;
  let primaryDataSource := dataProviderService_getPrimaryDataSource this in
  statistics ← getStatistics;
  subscriptions ← getSubscriptions;
  ret {| stripePublicKey := info_stripePublicKey;
         globalPermissions := globalPermissions;
         platforms := platforms;
         currencies := currencies;
         demoAuthToken := demoAuthToken;
         lastDataGathering := lastDataGathering;
         primaryDataSource := primaryDataSource;
         statistics := statistics;
         subscriptions := subscriptions |}.

(** *** Vocabulary of the properties *)

(** What the two GitHub counters yield, and the calls they make, as
    functions of the outcome of the request. *)
Definition gitHubContributors : option JsValue :=
  match httpGetJson this gitHubContributorsUrl with
  | inr contributors => optionalLength contributors
  | inl _ => None
  end.

Definition gitHubContributorsCalls : list Call :=
  HttpGet gitHubContributorsUrl ::
  match httpGetJson this gitHubContributorsUrl with
  | inl error => [LoggerError error]
  | inr _ => []
  end.

Definition gitHubStargazers : option JsValue :=
  match httpGetJson this gitHubRepositoryUrl with
  | inr (JObject props) => ownProperty "stargazers_count" props
  | _ => None
  end.

Definition gitHubStargazersCalls : list Call :=
  HttpGet gitHubRepositoryUrl ::
  match httpGetJson this gitHubRepositoryUrl with
  | inl error => [LoggerError error]
  | inr JNull =>
      [LoggerError
         (TypeError "Cannot destructure property 'stargazers_count' of null")]
  | inr _ => []
  end.

(** The statistics a recomputation yields. *)
Definition freshStatistics : JsValue :=
  statisticsObject
    (user_count this (AnalyticsUpdatedAfterDaysAgo 1))
    (user_count this (AnalyticsUpdatedAfterDaysAgo 7))
    (user_count this (AnalyticsUpdatedAfterDaysAgo 30))
    gitHubContributors gitHubStargazers
    (user_count this (CreatedAfterDaysAgo 30)).

(** The calls of a recomputation, between the cache read and the cache
    write. *)
Definition recomputationCalls : list Call :=
  [UserCount (AnalyticsUpdatedAfterDaysAgo 1);
   UserCount (AnalyticsUpdatedAfterDaysAgo 7);
   UserCount (AnalyticsUpdatedAfterDaysAgo 30);
   UserCount (CreatedAfterDaysAgo 30)]
  ++ gitHubContributorsCalls ++ gitHubStargazersCalls.

(** The six counters: four database counts and two GitHub requests. *)
Definition sixCounters : list Call :=
  [UserCount (AnalyticsUpdatedAfterDaysAgo 1);
   UserCount (AnalyticsUpdatedAfterDaysAgo 7);
   UserCount (AnalyticsUpdatedAfterDaysAgo 30);
   UserCount (CreatedAfterDaysAgo 30);
   HttpGet gitHubContributorsUrl;
   HttpGet gitHubRepositoryUrl].

(** The world a recomputation leaves. *)
Definition recomputed (w : World) : World :=
  {| cache :=
       <[CACHE_KEY_STATISTICS := JSON_stringify freshStatistics]> (cache w);
     calls :=
       calls w ++ CacheGet CACHE_KEY_STATISTICS :: recomputationCalls
       ++ [CacheSet CACHE_KEY_STATISTICS (JSON_stringify freshStatistics)] |}.

(** The cached statistics the [try] block returns, if it returns any. *)
Definition cachedStatistics (w : World) : option JsValue :=
  match cache w !! CACHE_KEY_STATISTICS with
  | Some text =>
      match JSON_parse text with
      | Some statistics => if truthy statistics then Some statistics else None
      | None => None
      end
  | None => None
  end.


End Service.

(** The feature flags, and a deployment with one of them set. *)
Inductive FeatureFlag : Type :=
  | FeatureBlog
  | FeatureImport
  | FeatureSocialLogin
  | FeatureStatistics
  | FeatureSubscription.

Definition setFlag (flag : FeatureFlag) (value : bool) (c : Configuration)
  : Configuration :=
  {| ENABLE_FEATURE_BLOG :=
       if flag is FeatureBlog then value else ENABLE_FEATURE_BLOG c;
     ENABLE_FEATURE_IMPORT :=
       if flag is FeatureImport then value else ENABLE_FEATURE_IMPORT c;
     ENABLE_FEATURE_SOCIAL_LOGIN :=
       if flag is FeatureSocialLogin then value else ENABLE_FEATURE_SOCIAL_LOGIN c;
     ENABLE_FEATURE_STATISTICS :=
       if flag is FeatureStatistics then value else ENABLE_FEATURE_STATISTICS c;
     ENABLE_FEATURE_SUBSCRIPTION :=
       if flag is FeatureSubscription then value else ENABLE_FEATURE_SUBSCRIPTION c;
     STRIPE_PUBLIC_KEY := STRIPE_PUBLIC_KEY c |}.

Definition withFlag (flag : FeatureFlag) (value : bool) (this : Services)
  : Services :=
  {| configurationService := setFlag flag value (configurationService this);
     platform_findMany := platform_findMany this;
     user_count := user_count this;
     property := property this;
     exchangeRateDataService_getCurrencies :=
       exchangeRateDataService_getCurrencies this;
     dataGatheringService_getLastDataGathering :=
       dataGatheringService_getLastDataGathering this;
     dataProviderService_getPrimaryDataSource :=
       dataProviderService_getPrimaryDataSource this;
     jwtService_sign := jwtService_sign this;
     httpGetJson := httpGetJson this |}.

(** The permission tag a flag stands for. *)
Definition permissionOf (permissions : Permissions) (flag : FeatureFlag)
  : string :=
  match flag with
  | FeatureBlog => enableBlog permissions
  | FeatureImport => enableImport permissions
  | FeatureSocialLogin => enableSocialLogin permissions
  | FeatureStatistics => enableStatistics permissions
  | FeatureSubscription => enableSubscription permissions
  end.

End InfoService.

(** * A concrete runtime

    The services are embedded over any [parseISO], [startOfDay],
    [JSON.parse] and [JSON.stringify]. The functions below are one runtime
    to run them on: a process in the UTC time zone, ISO dates in the
    extended format, and JSON restricted to integers and to strings without
    escapes. *)

Module Runtime.

Definition msPerDay : Z := 86400000.

(** [startOfDay] in UTC. *)
Definition startOfDay (time : Z) : Z := time - time mod msPerDay.

(** Days from 1970-01-01 to a date of the proleptic Gregorian calendar. *)
Definition daysFromCivil (year month day : Z) : Z :=
  let y := if month <=? 2 then year - 1 else year in
  let era := y / 400 in
  let yearOfEra := y - era * 400 in
  let monthFromMarch := (month + 9) mod 12 in
  let dayOfYear := (153 * monthFromMarch + 2) / 5 + day - 1 in
  let dayOfEra := yearOfEra * 365 + yearOfEra / 4 - yearOfEra / 100 + dayOfYear in
  era * 146097 + dayOfEra - 719468.

Definition isLeapYear (year : Z) : bool :=
  ((year mod 4 =? 0) && negb (year mod 100 =? 0)) || (year mod 400 =? 0).

Definition daysInMonth (year month : Z) : Z :=
  if month =? 2 then (if isLeapYear year then 29 else 28)
  else if (month =? 4) || (month =? 6) || (month =? 9) || (month =? 11) then 30
  else 31.

Definition digit (c : ascii) : option Z :=
  let n := Z.of_nat (Ascii.nat_of_ascii c) in
  if (48 <=? n) && (n <=? 57) then Some (n - 48) else None.

(** The value of exactly [count] leading decimal digits, and the rest. *)
Fixpoint digits (count : nat) (acc : Z) (s : string) : option (Z * string) :=
  match count with
  | O => Some (acc, s)
  | S count =>
      match s with
      | String c rest => d ← digit c; digits count (10 * acc + d) rest
      | EmptyString => None
      end
  end.

(** One expected character. *)
Definition expect (c : ascii) (s : string) : option string :=
  match s with
  | String c' rest => if Ascii.eqb c c' then Some rest else None
  | EmptyString => None
  end.

(** [YYYY-MM-DD], alone or followed by [THH:MM:SS.sssZ]; anything else is
    an Invalid Date. *)
Definition parseISO (argument : string) : JsDate :=
  '(year, s) ← digits 4 0 argument;
  s ← expect "-" s;
  '(month, s) ← digits 2 0 s;
  s ← expect "-" s;
  '(day, s) ← digits 2 0 s;
  if negb ((1 <=? month) && (month <=? 12)
           && (1 <=? day) && (day <=? daysInMonth year month))
  then None
  else
    let midnight := daysFromCivil year month day * msPerDay in
    match s with
    | EmptyString => Some midnight
    | _ =>
        s ← expect "T" s;
        '(hours, s) ← digits 2 0 s;
        s ← expect ":" s;
        '(minutes, s) ← digits 2 0 s;
        s ← expect ":" s;
        '(seconds, s) ← digits 2 0 s;
        s ← expect "." s;
        '(milliseconds, s) ← digits 3 0 s;
        s ← expect "Z" s;
        match s with
        | EmptyString =>
            if (hours <=? 23) && (minutes <=? 59) && (seconds <=? 59)
            then Some (midnight + hours * 3600000 + minutes * 60000
                       + seconds * 1000 + milliseconds)
            else None
        | _ => None
        end
    end.

(** *** JSON, integers only *)

Definition dquoteChar : ascii :=
  Ascii.Ascii false true false false false true false false.

Definition numberOfZ (z : Z) : number :=
  if z <? 0 then PrimFloat.opp (PrimFloat.of_uint63 (Uint63.of_Z (- z)))
  else PrimFloat.of_uint63 (Uint63.of_Z z).

(** The integer a number holds, if it holds one. *)
Definition integerOfNumber (n : number) : option Z :=
  match FloatOps.Prim2SF n with
  | SpecFloat.S754_zero _ => Some 0
  | SpecFloat.S754_finite negative mantissa exponent =>
      let m := if negative then Z.neg mantissa else Z.pos mantissa in
      if 0 <=? exponent then Some (m * 2 ^ exponent)
      else if m mod 2 ^ (- exponent) =? 0 then Some (m / 2 ^ (- exponent))
      else None
  | _ => None
  end.

Definition commaSeparated (items : list string) : string :=
  match items with
  | [] => EmptyString
  | first :: rest => fold_left (fun acc item => acc +:+ "," +:+ item) rest first
  end.

(** [JSON.stringify]; a number that is no integer is outside the subset
    and printed as [null]. *)
Fixpoint JSON_stringify (value : JsValue) : string :=
  match value with
  | JNull => "null"
  | JBool true => "true"
  | JBool false => "false"
  | JNumber n =>
      match integerOfNumber n with
      | Some z => pretty z
      | None => "null"
      end
  | JString s => dquote +:+ s +:+ dquote
  | JArray items => "[" +:+ commaSeparated (map JSON_stringify items) +:+ "]"
  | JObject props =>
      "{" +:+ commaSeparated
                (map (fun p => dquote +:+ fst p +:+ dquote +:+ ":"
                                +:+ JSON_stringify (snd p)) props)
      +:+ "}"
  end.

(** The characters up to the closing quote of a string without escapes. *)
Fixpoint untilQuote (s : string) : option (string * string) :=
  match s with
  | EmptyString => None
  | String c rest =>
      if Ascii.eqb c dquoteChar then Some (EmptyString, rest)
      else if Ascii.eqb c "\" then None
      else '(body, rest') ← untilQuote rest; Some (String c body, rest')
  end.

Fixpoint leadingDigits (acc : Z) (s : string) : Z * string :=
  match s with
  | String c rest =>
      match digit c with
      | Some d => leadingDigits (10 * acc + d) rest
      | None => (acc, s)
      end
  | EmptyString => (acc, s)
  end.

(** Items separated by commas up to the [close] character. *)
Fixpoint separated {A} (item : string -> option (A * string)) (close : ascii)
    (fuel : nat) (s : string) : option (list A * string) :=
  match fuel with
  | O => None
  | S fuel =>
      '(a, s) ← item s;
      match s with
      | String c rest =>
          if Ascii.eqb c "," then
            '(others, rest') ← separated item close fuel rest;
            Some (a :: others, rest')
          else if Ascii.eqb c close then Some ([a], rest)
          else None
      | EmptyString => None
      end
  end.

Definition stripPrefix (prefix s : string) : option string :=
  if String.prefix prefix s
  then Some (String.substring (String.length prefix)
               (String.length s - String.length prefix) s)
  else None.

Fixpoint parseValue (fuel : nat) (s : string) : option (JsValue * string) :=
  match fuel with
  | O => None
  | S fuel =>
      match s with
      | EmptyString => None
      | String c rest =>
          if Ascii.eqb c "n" then pair JNull <$> stripPrefix "ull" rest
          else if Ascii.eqb c "t" then pair (JBool true) <$> stripPrefix "rue" rest
          else if Ascii.eqb c "f" then pair (JBool false) <$> stripPrefix "alse" rest
          else if Ascii.eqb c dquoteChar then
            '(body, rest') ← untilQuote rest; Some (JString body, rest')
          else if Ascii.eqb c "[" then
            match rest with
            | String "]" rest' => Some (JArray [], rest')
            | _ =>
                '(items, rest') ←
                  separated (parseValue fuel) "]" (String.length rest) rest;
                Some (JArray items, rest')
            end
          else if Ascii.eqb c "{" then
            match rest with
            | String "}" rest' => Some (JObject [], rest')
            | _ =>
                '(props, rest') ←
                  separated
                    (fun s =>
                       s ← expect dquoteChar s;
                       '(key, s) ← untilQuote s;
                       s ← expect ":" s;
                       '(value, s) ← parseValue fuel s;
                       Some ((key, value), s))
                    "}" (String.length rest) rest;
                Some (JObject props, rest')
            end
          else if Ascii.eqb c "-" then
            match rest with
            | String d _ =>
                if digit d is Some _ then
                  let '(z, rest') := leadingDigits 0 rest in
                  Some (JNumber (numberOfZ (- z)), rest')
                else None
            | EmptyString => None
            end
          else if digit c is Some _ then
            let '(z, rest') := leadingDigits 0 s in
            Some (JNumber (numberOfZ z), rest')
          else None
      end
  end.

(** [JSON.parse], [None] for a [SyntaxError]. *)
Definition JSON_parse (text : string) : option JsValue :=
  match parseValue (S (String.length text)) text with
  | Some (value, EmptyString) => Some value
  | _ => None
  end.

End Runtime.

(** * Example data for the import service *)

Module ImportExamples.
Import ImportService.

(** A data provider that knows two symbols of one data source. *)
Definition knownSymbols : list (string * string) :=
  [("YAHOO", "AAPL"); ("YAHOO", "MSFT")].

Definition dataProviderGet (items : list (string * string)) : gmap string unit :=
  list_to_map
    (omap (fun item =>
             if bool_decide (item ∈ knownSymbols) then Some (snd item, tt) else None)
          items).

Definition buyApple : ImportOrder :=
  {| accountId := "account-1"; currency := "USD"; dataSource := "YAHOO";
     date := "2021-06-01T00:00:00.000Z"; fee := 1.5%float;
     quantity := 10%float; symbol := "AAPL"; type := "BUY";
     unitPrice := 124.5%float |}.

Definition buyMicrosoft : ImportOrder :=
  {| accountId := "account-2"; currency := "USD"; dataSource := "YAHOO";
     date := "2021-06-02"; fee := 0%float;
     quantity := 3%float; symbol := "MSFT"; type := "BUY";
     unitPrice := 247.25%float |}.



(** The purchase of [buyApple], persisted for user-1 with a time of day. *)
Definition persistedApple : Order.t :=
  {| Order.accountId := "account-1"; Order.currency := "USD";
     Order.dataSource := "YAHOO"; Order.date := Some 1622536200000;
     Order.fee := 1.5%float; Order.quantity := 10%float;
     Order.symbol := "AAPL"; Order.type := "BUY";
     Order.unitPrice := 124.5%float; Order.userId := "user-1" |}.

Definition emptyWorld : World := {| orderTable := []; calls := [] |}.

Definition worldWithApple : World :=
  {| orderTable := [persistedApple]; calls := [] |}.

(** Twenty-one orders on twenty-one different days. *)
Definition dayOfJune (day : nat) : string :=
  "2021-06-" +:+ (if bool_decide (day < 10)%nat then "0" else EmptyString)
  +:+ pretty day.

Definition buyMicrosoftOn (day : nat) : ImportOrder :=
  {| accountId := "account-2"; currency := "USD"; dataSource := "YAHOO";
     date := dayOfJune day; fee := 0%float;
     quantity := 3%float; symbol := "MSFT"; type := "BUY";
     unitPrice := 247.25%float |}.

Definition twentyOneOrders : list ImportOrder :=
  map buyMicrosoftOn (seq 1 21).

End ImportExamples.

(** * Example data for the info service *)

Module InfoExamples.
Import InfoService.

Definition permissions : Permissions :=
  {| enableBlog := "enableBlog";
     enableImport := "enableImport";
     enableSocialLogin := "enableSocialLogin";
     enableStatistics := "enableStatistics";
     enableSubscription := "enableSubscription" |}.

Definition allFeatures : Configuration :=
  {| ENABLE_FEATURE_BLOG := true;
     ENABLE_FEATURE_IMPORT := true;
     ENABLE_FEATURE_SOCIAL_LOGIN := true;
     ENABLE_FEATURE_STATISTICS := true;
     ENABLE_FEATURE_SUBSCRIPTION := true;
     STRIPE_PUBLIC_KEY := "pk_live_example" |}.

(** 2, 14 and 60 active users in the last 1, 7 and 30 days, 30 new ones. *)
Definition users (where_ : UserWhere) : number :=
  match where_ with
  | AnalyticsUpdatedAfterDaysAgo aDays => numberOfNat (2 * aDays)
  | CreatedAfterDaysAgo aDays => numberOfNat aDays
  end.

(** GitHub answering: three contributors, 1500 stargazers. *)
Definition gitHubUp (url : string) : JsError + JsValue :=
  if bool_decide (url = gitHubContributorsUrl) then
    inr (JArray [JObject [("login", JString "alice")];
                 JObject [("login", JString "bob")];
                 JObject [("login", JString "carol")]])
  else if bool_decide (url = gitHubRepositoryUrl) then
    inr (JObject [("name", JString "ghostfolio");
                  ("stargazers_count", JNumber 1500%float)])
  else inl (Rejection "404").

(** GitHub out of reach. *)
Definition gitHubDown (url : string) : JsError + JsValue :=
  inl (Rejection "ECONNREFUSED").

Definition stripeConfig : JsValue :=
  JObject [("price", JNumber 19%float); ("priceId", JString "price_1")].

Definition services (configuration : Configuration)
    (properties : gmap string string)
    (http : string -> JsError + JsValue) : Services :=
  {| configurationService := configuration;
     platform_findMany :=
       [{| id := "platform-1"; name := "Interactive Brokers" |};
        {| id := "platform-2"; name := "Swissquote" |}];
     user_count := users;
     property := properties;
     exchangeRateDataService_getCurrencies := ["CHF"; "EUR"; "USD"];
     dataGatheringService_getLastDataGathering := Some (Some 1622505600000);
     dataProviderService_getPrimaryDataSource := "YAHOO";
     jwtService_sign := fun id => "jwt." +:+ id;
     httpGetJson := http |}.

Definition withStripeConfig : gmap string string :=
  {[ "STRIPE_CONFIG" := Runtime.JSON_stringify stripeConfig ]}.

(** A deployment with every feature enabled, a Stripe configuration and
    GitHub answering; and one without Stripe configuration that cannot
    reach GitHub. *)
Definition deployment : Services := services allFeatures withStripeConfig gitHubUp.
Definition isolatedDeployment : Services := services allFeatures ∅ gitHubDown.

(** A deployment whose stored Stripe configuration is no JSON. *)
Definition misconfiguredDeployment : Services :=
  services allFeatures {[ "STRIPE_CONFIG" := "{oops" ]} gitHubUp.

(** The statistics the two deployments compute. *)
Definition deploymentStatistics : JsValue :=
  JObject [("activeUsers1d", JNumber 2%float);
           ("activeUsers7d", JNumber 14%float);
           ("activeUsers30d", JNumber 60%float);
           ("gitHubContributors", JNumber 3%float);
           ("gitHubStargazers", JNumber 1500%float);
           ("newUsers30d", JNumber 30%float)].

Definition isolatedStatistics : JsValue :=
  JObject [("activeUsers1d", JNumber 2%float);
           ("activeUsers7d", JNumber 14%float);
           ("activeUsers30d", JNumber 60%float);
           ("newUsers30d", JNumber 30%float)].

(** Statistics of an earlier day, as a cached text. *)
Definition olderStatistics : JsValue :=
  JObject [("activeUsers1d", JNumber 1%float);
           ("activeUsers7d", JNumber 9%float);
           ("activeUsers30d", JNumber 41%float);
           ("gitHubContributors", JNumber 3%float);
           ("gitHubStargazers", JNumber 1400%float);
           ("newUsers30d", JNumber 25%float)].

(** The info object of [deployment] on a cold cache, with the subscription
    feature and without it. *)
Definition infoWithSubscription : InfoItem :=
  {| stripePublicKey := Some "pk_live_example";
     globalPermissions :=
       ["enableBlog"; "enableImport"; "enableSocialLogin"; "enableStatistics";
        "enableSubscription"];
     platforms := platform_findMany deployment;
     currencies := ["CHF"; "EUR"; "USD"];
     demoAuthToken := "jwt.9b112b4d-3b7d-4bad-9bdd-3b0f7b4dac2f";
     lastDataGathering := Some (Some 1622505600000);
     primaryDataSource := "YAHOO";
     statistics := Some deploymentStatistics;
     subscriptions := Some [stripeConfig] |}.


Definition coldWorld : World := {| cache := ∅; calls := [] |}.

(** A world whose cache holds [text] under the statistics key. *)
Definition cachedWorld (text : string) : World :=
  {| cache := {[ "STATISTICS" := text ]}; calls := [] |}.

End InfoExamples.

(** * Further vocabulary and example data *)

Module ImportVocabulary.
Import ImportService.

(** The characters a rendered index is made of. *)
Definition isDecimalDigit (c : ascii) : bool :=
  (48 <=? Ascii.nat_of_ascii c)%nat && (Ascii.nat_of_ascii c <=? 57)%nat.

Fixpoint allDecimalDigits (s : string) : bool :=
  match s with
  | EmptyString => true
  | String c rest => isDecimalDigit c && allDecimalDigits rest
  end.

(** A text that does not go on with a digit. *)
Definition startsWithoutDigit (s : string) : bool :=
  match s with
  | EmptyString => true
  | String c _ => negb (isDecimalDigit c)
  end.

(** The validation errors, by kind. *)
Inductive ValidationError : Type :=
  | TooMany
  | Duplicate (index : nat)
  | Invalid (index : nat) (symbol dataSource : string).

Definition errorOf (e : ValidationError) : JsError :=
  match e with
  | TooMany => BatchTooLarge
  | Duplicate index => DuplicateOrder index
  | Invalid index symbol dataSource => InvalidSymbol index symbol dataSource
  end.

(** The index an error names, if it names one. *)
Definition indexOf (e : ValidationError) : option nat :=
  match e with
  | TooMany => None
  | Duplicate index | Invalid index _ _ => Some index
  end.

(** Errors of the same kind. *)
Definition sameKind (e1 e2 : ValidationError) : bool :=
  match e1, e2 with
  | TooMany, TooMany | Duplicate _, Duplicate _ | Invalid _ _ _, Invalid _ _ _ => true
  | _, _ => false
  end.

(** The orders persisted for a user. *)
Definition ordersOfUser (userId : string) (w : World) : list Order.t :=
  filter (fun o => Order.userId o = userId) (orderTable w).

End ImportVocabulary.

Module MoreImportExamples.
Import ImportService ImportExamples.

(** The purchase of [buyMicrosoft], persisted for user-2. *)
Definition persistedMicrosoft : Order.t :=
  {| Order.accountId := "account-9"; Order.currency := "USD";
     Order.dataSource := "YAHOO"; Order.date := Some 1622592000000;
     Order.fee := 0%float; Order.quantity := 3%float;
     Order.symbol := "MSFT"; Order.type := "BUY";
     Order.unitPrice := 247.25%float; Order.userId := "user-2" |}.

(** The table of [worldWithApple] with an order of another user, after
    some calls. *)
Definition busyWorld : World :=
  {| orderTable := [persistedMicrosoft; persistedApple];
     calls := [OrdersCall "user-2"] |}.

(** A persistence service that finds no account [account-2]. *)
Definition withoutAccount2 (w : World) (data : OrderCreateInput.t)
  : option JsError :=
  if bool_decide
       (OrderCreateInput.id (OrderCreateInput.Account data) = "account-2")
  then Some (Error "No Account found")
  else None.

End MoreImportExamples.

Module InfoVocabulary.
Import InfoService.

Definition allFlags : list FeatureFlag :=
  [FeatureBlog; FeatureImport; FeatureSocialLogin; FeatureStatistics;
   FeatureSubscription].

Definition flagEnabled (c : Configuration) (flag : FeatureFlag) : bool :=
  match flag with
  | FeatureBlog => ENABLE_FEATURE_BLOG c
  | FeatureImport => ENABLE_FEATURE_IMPORT c
  | FeatureSocialLogin => ENABLE_FEATURE_SOCIAL_LOGIN c
  | FeatureStatistics => ENABLE_FEATURE_STATISTICS c
  | FeatureSubscription => ENABLE_FEATURE_SUBSCRIPTION c
  end.

(** The calls only the statistics sub-routine makes. *)
Definition isStatisticsCall (c : Call) : bool :=
  match c with
  | CacheGet _ | CacheSet _ _ | UserCount _ | HttpGet _ | LoggerError _ => true
  | PlatformFindMany | GetLastDataGathering | PropertyFindUnique _ => false
  end.

Definition isLoggerError (c : Call) : bool :=
  match c with LoggerError _ => true | _ => false end.

End InfoVocabulary.

(** * The concrete runtime on a few inputs *)

Module RuntimeExamples.
Import Runtime.

Example parseISO_date : parseISO "2021-06-01" = Some 1622505600000.
Proof. reflexivity. Qed.

Example parseISO_instant :
  parseISO "2021-06-01T08:30:00.000Z" = Some 1622536200000.
Proof. reflexivity. Qed.

Example parseISO_before_epoch : parseISO "1969-12-31T23:59:59.999Z" = Some (-1).
Proof. reflexivity. Qed.

Example parseISO_no_such_day : parseISO "2021-02-29" = None.
Proof. reflexivity. Qed.

Example isSameDay_morning_and_midnight :
  isSameDay startOfDay (parseISO "2021-06-01T08:30:00.000Z")
    (parseISO "2021-06-01") = true.
Proof. reflexivity. Qed.

Example isSameDay_next_day :
  isSameDay startOfDay (parseISO "2021-06-01T08:30:00.000Z")
    (parseISO "2021-06-02") = false.
Proof. reflexivity. Qed.

Example isSameDay_invalid_date :
  isSameDay startOfDay (parseISO "yesterday") (parseISO "yesterday") = false.
Proof. reflexivity. Qed.

Example JSON_parse_null : JSON_parse "null" = Some JNull.
Proof. reflexivity. Qed.

Example JSON_parse_array :
  JSON_parse "[1,[true,null],-20]" =
  Some (JArray [JNumber 1%float; JArray [JBool true; JNull];
                JNumber (-20)%float]).
Proof. vm_compute. reflexivity. Qed.

Example JSON_parse_truncated : JSON_parse "[1,2" = None.
Proof. vm_compute. reflexivity. Qed.

Example JSON_round_trip :
  JSON_parse
    (JSON_stringify
       (JObject [("price", JNumber 19%float); ("tags", JArray [JString "a"])])) =
  Some (JObject [("price", JNumber 19%float); ("tags", JArray [JString "a"])]).
Proof. vm_compute. reflexivity. Qed.

Example truthy_values :
  map truthy [JNull; JBool false; JNumber 0%float; JString EmptyString;
              JNumber 1%float; JString "0"; JArray []; JObject []] =
  [false; false; false; false; true; true; true; true].
Proof. reflexivity. Qed.

End RuntimeExamples.

(** * Properties of the import service *)

Module ImportProperties.
Import ImportService.

(** Unfolding of the monad's operations. *)
Ltac async_unfold :=
  unfold mbind, async_bind, bind, mret, async_ret, ret, throw, tryCatch in *.

Lemma find_None_Forall {A} (f : A -> bool) (l : list A) :
  find f l = None <-> Forall (fun x => f x = false) l.
Proof.
  induction l as [|x l IH]; simpl.
  - split; [constructor | reflexivity].
  - destruct (f x) eqn:Hx.
    + split; [discriminate | intros H; inversion H; congruence].
    + rewrite IH. split; [by constructor | by inversion 1].
Qed.

Lemma find_None_Permutation {A} (f : A -> bool) (l l' : list A) :
  l ≡ₚ l' -> find f l = None <-> find f l' = None.
Proof. intros Hp. rewrite !find_None_Forall. by rewrite Hp. Qed.

Section Properties.
Variable parseISO : string -> JsDate.
Variable startOfDay : Z -> Z.
Context {DataProviderResponse : Type}.
Variable dataProviderGet :
  list (string * string) -> gmap string DataProviderResponse.

Local Abbreviation isDuplicateOf := (ImportService.isDuplicateOf parseISO startOfDay).
Local Abbreviation agrees := (ImportService.agrees parseISO startOfDay).
Local Abbreviation duplicatesExisting :=
  (ImportService.duplicatesExisting parseISO startOfDay).
Local Abbreviation knownSymbol := (ImportService.knownSymbol dataProviderGet).
Local Abbreviation symbolAccepted := (ImportService.symbolAccepted dataProviderGet).
Local Abbreviation validateOrders :=
  (ImportService.validateOrders parseISO startOfDay dataProviderGet).
Local Abbreviation createInput := (ImportService.createInput parseISO).
Local Abbreviation import_ :=
  (ImportService.import parseISO startOfDay dataProviderGet).
Local Abbreviation sameDedupTuple := (ImportService.sameDedupTuple startOfDay).
Local Abbreviation NoDuplicateOrders := (ImportService.NoDuplicateOrders startOfDay).
Local Abbreviation candidatesShareTuple :=
  (ImportService.candidatesShareTuple parseISO startOfDay).

(** The orders [orderService.orders] answers for a user. *)
Local Abbreviation existingOrders w userId :=
  (merge_sort newerFirst
     (filter (fun o => Order.userId o = userId) (orderTable w))).

(** The body of the validation loop. *)
Local Abbreviation validateEntry existing :=
  (fun (index : nat) (o : ImportOrder) =>
     if find (isDuplicateOf o) existing is Some _
     then throw (DuplicateOrder index)
     else
       result ← dataProviderService_get dataProviderGet [(dataSource o, symbol o)];
       if readsUndefined result (symbol o)
       then throw (InvalidSymbol index (symbol o) (dataSource o))
       else ret tt).

(** The world after further collaborator calls that store nothing. *)
Local Abbreviation calledAll cs w :=
  {| orderTable := orderTable w; calls := calls w ++ cs |}.

Lemma isDuplicateOf_agrees o order :
  isDuplicateOf o order = true <-> agrees o order.
Proof.
  unfold ImportService.isDuplicateOf, ImportService.agrees.
  rewrite !andb_true_iff, !bool_decide_eq_true. tauto.
Qed.

Lemma no_duplicate_found w userId o :
  find (isDuplicateOf o) (existingOrders w userId) = None
  <-> ~ duplicatesExisting w userId o.
Proof.
  rewrite (find_None_Permutation _ _ _ (merge_sort_Permutation _ _)).
  rewrite find_None_Forall, Forall_forall.
  unfold ImportService.duplicatesExisting. split.
  - intros H (order & Hin & Hu & Hag).
    apply isDuplicateOf_agrees in Hag.
    rewrite H in Hag; [discriminate|].
    apply list_elem_of_filter. by split.
  - intros H order [Hu Hin]%list_elem_of_filter.
    destruct (isDuplicateOf o order) eqn:Hd; [|done].
    exfalso. apply H. exists order. split_and!; [done..|].
    by apply isDuplicateOf_agrees.
Qed.

Lemma validateOrders_unfold orders userId w :
  validateOrders orders userId w =
  if bool_decide (MAX_ORDERS_TO_IMPORT < length orders)%nat
  then (inl BatchTooLarge, w)
  else forOfEntries (validateEntry (existingOrders w userId)) 0%nat orders
         (calledAll [OrdersCall userId] w).
Proof.
  unfold ImportService.validateOrders. case_bool_decide; reflexivity.
Qed.

(** An entry that passes both checks. *)
Local Abbreviation passes existing o :=
  (find (isDuplicateOf o) existing = None /\ symbolAccepted o).

(** An own entry under the symbol is enough for the symbol check. *)
Lemma knownSymbol_accepted o : knownSymbol o -> symbolAccepted o.
Proof.
  intros [r Hr]. unfold ImportService.symbolAccepted, readsUndefined.
  rewrite Hr. done.
Qed.


(** The symbol check lets through exactly the symbols with an own entry and
    the names of inherited members. *)
Lemma symbolAccepted_iff o :
  symbolAccepted o
  <-> knownSymbol o \/ symbol o ∈ objectPrototypeMembers.
Proof.
  unfold ImportService.symbolAccepted, ImportService.knownSymbol, readsUndefined.
  rewrite andb_false_iff, !bool_decide_eq_false.
  rewrite <- not_eq_None_Some. split.
  - intros [H | H]; [by left | right]. by apply dec_stable.
  - intros [H | H]; [by left | right]. tauto.
Qed.

Lemma calledAll_app (w : World) cs1 cs2 :
  calledAll cs2 (calledAll cs1 w) = calledAll (cs1 ++ cs2) w.
Proof. simpl. by rewrite app_assoc. Qed.

(** The loop over entries that all pass makes one lookup each. *)
Lemma validate_loop_passes existing l : forall index w,
  Forall (fun o => passes existing o) l ->
  forOfEntries (validateEntry existing) index l w =
  (inr tt, calledAll (map lookupCall l) w).
Proof.
  induction l as [|o l IH]; intros index w Hall; simpl.
  - unfold ret. destruct w; simpl. by rewrite app_nil_r.
  - inversion Hall as [|? ? [Hnd Hr] Hl]; subst.
    async_unfold. rewrite Hnd. unfold dataProviderService_get. simpl.
    rewrite Hr. rewrite IH by done. simpl. by rewrite <- app_assoc.
Qed.

(** The loop stops at the first entry that is a duplicate. *)
Lemma validate_loop_duplicate existing l1 o l2 : forall index w,
  Forall (fun o => passes existing o) l1 ->
  find (isDuplicateOf o) existing <> None ->
  forOfEntries (validateEntry existing) index (l1 ++ o :: l2) w =
  (inl (DuplicateOrder (index + length l1)), calledAll (map lookupCall l1) w).
Proof.
  induction l1 as [|o1 l1 IH]; intros index w Hall Hdup; simpl.
  - async_unfold. destruct (find _ existing); [|done].
    rewrite Nat.add_0_r. destruct w; simpl. by rewrite app_nil_r.
  - inversion Hall as [|? ? [Hnd Hr] Hl]; subst.
    async_unfold. rewrite Hnd. unfold dataProviderService_get. simpl.
    rewrite Hr. rewrite IH by done. simpl.
    rewrite <- app_assoc. simpl. do 3 f_equal. lia.
Qed.

(** The loop stops at the first entry whose symbol reads as [undefined],
    after the lookup for it. *)
Lemma validate_loop_unknown existing l1 o l2 : forall index w,
  Forall (fun o => passes existing o) l1 ->
  find (isDuplicateOf o) existing = None ->
  ~ symbolAccepted o ->
  forOfEntries (validateEntry existing) index (l1 ++ o :: l2) w =
  (inl (InvalidSymbol (index + length l1) (symbol o) (dataSource o)),
   calledAll (map lookupCall (l1 ++ [o])) w).
Proof.
  induction l1 as [|o1 l1 IH]; intros index w Hall Hnd Hunknown; simpl.
  - async_unfold. rewrite Hnd. unfold dataProviderService_get. simpl.
    apply not_false_is_true in Hunknown.
    rewrite Hunknown. by rewrite Nat.add_0_r.
  - inversion Hall as [|? ? [Hnd1 Hr] Hl]; subst.
    async_unfold. rewrite Hnd1. unfold dataProviderService_get. simpl.
    rewrite Hr. rewrite IH by done. simpl.
    rewrite <- app_assoc. simpl. do 3 f_equal. lia.
Qed.


(** Every batch either passes as a whole or has a first entry that fails
    one of the two checks. *)
Lemma first_failure existing (l : list ImportOrder) :
  Forall (fun o => passes existing o) l
  \/ exists l1 o l2,
       l = l1 ++ o :: l2
       /\ Forall (fun o => passes existing o) l1
       /\ (find (isDuplicateOf o) existing <> None
           \/ find (isDuplicateOf o) existing = None /\ ~ symbolAccepted o).
Proof.
  induction l as [|o l IH].
  - left. constructor.
  - destruct (find (isDuplicateOf o) existing) as [d|] eqn:Hfind.
    { right. exists [], o, l. split_and!; [done | constructor | left; congruence]. }
    destruct (readsUndefined (dataProviderGet [(dataSource o, symbol o)]) (symbol o))
      eqn:Hr.
    { right. exists [], o, l. split_and!; [done | constructor |].
      right. split; [done|]. unfold ImportService.symbolAccepted. congruence. }
    destruct IH as [Hall | (l1 & o' & l2 & -> & Hall & Hfail)].
    + left. constructor; [|done]. by split.
    + right. exists (o :: l1), o', l2. split_and!; [done | | done].
      constructor; [|done]. by split.
Qed.

(** The persistence loop appends one record per entry, in order. *)
Lemma create_loop userId (l : list ImportOrder) : forall w,
  forOf (fun o => orderService_createOrder (createInput userId o);; ret tt) l w =
  (inr tt,
   {| orderTable := orderTable w ++ map (fun o => orderOf (createInput userId o)) l;
      calls := calls w ++ map (fun o => CreateOrderCall (createInput userId o)) l |}).
Proof.
  induction l as [|o l IH]; intros w; simpl.
  - unfold ret. destruct w; simpl. by rewrite !app_nil_r.
  - async_unfold. unfold orderService_createOrder. rewrite IH. simpl.
    by rewrite <- !app_assoc.
Qed.

Lemma import_unfold orders userId w :
  import_ orders userId w =
  match validateOrders orders userId w with
  | (inr _, w') =>
      forOf (fun o => orderService_createOrder (createInput userId o);; ret tt)
        orders w'
  | (inl e, w') => (inl e, w')
  end.
Proof. reflexivity. Qed.

(** The four outcomes of [import], with the world each leaves. *)
Lemma import_outcome orders userId (w : World) :
  ((MAX_ORDERS_TO_IMPORT < length orders)%nat
   /\ import_ orders userId w = (inl BatchTooLarge, w))
  \/ ((length orders <= MAX_ORDERS_TO_IMPORT)%nat
      /\ Forall (fun o => passes (existingOrders w userId) o) orders
      /\ import_ orders userId w =
         (inr tt,
          {| orderTable :=
               orderTable w ++ map (fun o => orderOf (createInput userId o)) orders;
             calls :=
               calls w ++ OrdersCall userId :: map lookupCall orders
               ++ map (fun o => CreateOrderCall (createInput userId o)) orders |}))
  \/ (exists l1 o l2,
        (length orders <= MAX_ORDERS_TO_IMPORT)%nat
        /\ orders = l1 ++ o :: l2
        /\ Forall (fun o => passes (existingOrders w userId) o) l1
        /\ find (isDuplicateOf o) (existingOrders w userId) <> None
        /\ import_ orders userId w =
           (inl (DuplicateOrder (length l1)),
            calledAll (OrdersCall userId :: map lookupCall l1) w))
  \/ (exists l1 o l2,
        (length orders <= MAX_ORDERS_TO_IMPORT)%nat
        /\ orders = l1 ++ o :: l2
        /\ Forall (fun o => passes (existingOrders w userId) o) l1
        /\ find (isDuplicateOf o) (existingOrders w userId) = None
        /\ ~ symbolAccepted o
        /\ import_ orders userId w =
           (inl (InvalidSymbol (length l1) (symbol o) (dataSource o)),
            calledAll (OrdersCall userId :: map lookupCall (l1 ++ [o])) w)).
Proof.
  rewrite import_unfold, validateOrders_unfold.
  case_bool_decide as Hlen; [left; by split|].
  right. apply Nat.nlt_ge in Hlen.
  destruct (first_failure (existingOrders w userId) orders)
    as [Hall | (l1 & o & l2 & Heq & Hall & [Hdup | [Hnd Hunknown]])].
  - left. split_and!; [done..|].
    rewrite validate_loop_passes by done.
    rewrite create_loop. simpl. by rewrite <- !app_assoc.
  - right; left. exists l1, o, l2. split_and!; [done..|].
    rewrite Heq, validate_loop_duplicate by done. simpl.
    by rewrite <- app_assoc.
  - right; right. exists l1, o, l2. split_and!; [done..|].
    rewrite Heq, validate_loop_unknown by done. simpl.
    by rewrite <- app_assoc.
Qed.

Lemma lookupCall_not_create (l : list ImportOrder) :
  Forall (fun c => isCreateOrderCall c = false) (map lookupCall l).
Proof. apply Forall_forall. intros c (o & -> & _)%list_elem_of_fmap. done. Qed.


Lemma passes_iff w userId o :
  passes (existingOrders w userId) o
  <-> ~ duplicatesExisting w userId o /\ symbolAccepted o.
Proof. by rewrite no_duplicate_found. Qed.



(** C1. A batch that passes validation (at most 20 orders, none a duplicate
    of an order persisted for the user, every symbol known to the data
    provider) is imported whole: the table gains exactly one record per
    order, in input order, each linked to the account of its order and to
    the given user; the calls are the read of the existing orders, one
    lookup per order, and only then one [createOrder] per order. *)
Theorem import_valid_batch orders userId (w : World) :
  (length orders <= 20)%nat ->
  (forall o, o ∈ orders -> ~ duplicatesExisting w userId o) ->
  (forall o, o ∈ orders -> knownSymbol o) ->
  import_ orders userId w =
    (inr tt,
     {| orderTable :=
          orderTable w ++ map (fun o => orderOf (createInput userId o)) orders;
        calls :=
          calls w ++ OrdersCall userId :: map lookupCall orders
          ++ map (fun o => CreateOrderCall (createInput userId o)) orders |})
  /\ forall o,
       Order.accountId (orderOf (createInput userId o)) = accountId o
       /\ Order.userId (orderOf (createInput userId o)) = userId
       /\ OrderCreateInput.Account (createInput userId o) =
          {| OrderCreateInput.userId := userId;
             OrderCreateInput.id := accountId o |}.
Proof.
  intros Hlen Hnodup Hknown. split; [|done].
  destruct (import_outcome orders userId w)
    as [[Hlarge _] | [(_ & _ & H) | [(l1 & o & l2 & _ & -> & _ & Hdup & _)
                                    | (l1 & o & l2 & _ & -> & _ & _ & Hunk & _)]]].
  - unfold MAX_ORDERS_TO_IMPORT in Hlarge. lia.
  - exact H.
  - exfalso. apply Hdup, no_duplicate_found, Hnodup.
    set_solver.
  - exfalso. apply Hunk, knownSymbol_accepted, Hknown. set_solver.
Qed.

(** C2. A batch of more than 20 orders fails with [BatchTooLarge] and
    leaves the world as it was: nothing is stored and no collaborator is
    called, neither for the existing orders nor for a symbol. *)
Theorem import_batch_too_large orders userId (w : World) :
  (20 < length orders)%nat ->
  import_ orders userId w = (inl BatchTooLarge, w).
Proof.
  intros Hlen.
  destruct (import_outcome orders userId w)
    as [[_ H] | [(Hle & _) | [(l1 & o & l2 & Hle & _)
                             | (l1 & o & l2 & Hle & _)]]];
    [exact H | unfold MAX_ORDERS_TO_IMPORT in Hle; lia ..].
Qed.



(** C5, amended. Import keeps the table free of two orders of one user
    with the same deduplication tuple, provided no two orders of the batch
    share that tuple. *)
Theorem import_preserves_no_duplicates orders userId (w w' : World) :
  NoDuplicateOrders (orderTable w) ->
  (forall i j o1 o2, (i < j)%nat -> orders !! i = Some o1 ->
                     orders !! j = Some o2 -> ~ candidatesShareTuple o1 o2) ->
  import_ orders userId w = (inr tt, w') ->
  NoDuplicateOrders (orderTable w').
Proof.
  intros Hinv Hbatch Himport.
  destruct (import_outcome orders userId w)
    as [[_ H] | [(_ & Hall & H) | [(l1 & o & l2 & _ & _ & _ & _ & H)
                                  | (l1 & o & l2 & _ & _ & _ & _ & _ & H)]]];
    rewrite H in Himport; inversion Himport; subst; clear Himport H.
  simpl. intros i j a b Hij Ha Hb Huser Hsame.
  apply lookup_app_Some in Ha as [Ha | [Hia Ha]];
    apply lookup_app_Some in Hb as [Hb | [Hjb Hb]].
  - by apply (Hinv i j a b).
  - (* an existing order and a new one *)
    rewrite list_lookup_fmap in Hb.
    destruct (orders !! (j - length (orderTable w))%nat) as [o|] eqn:Ho;
      [|discriminate].
    injection Hb as <-.
    assert (Hpass : passes (existingOrders w userId) o).
    { exact (Forall_lookup_1 _ _ _ _ Hall Ho). }
    destruct Hpass as [Hnd%no_duplicate_found _]. apply Hnd.
    exists a. split_and!; [by eapply list_elem_of_lookup_2 | done | exact Hsame].
  - apply lookup_lt_Some in Hb. lia.
  - (* two new orders *)
    rewrite list_lookup_fmap in Ha, Hb.
    destruct (orders !! (i - length (orderTable w))%nat) as [o1|] eqn:Ho1;
      [|discriminate].
    destruct (orders !! (j - length (orderTable w))%nat) as [o2|] eqn:Ho2;
      [|discriminate].
    injection Ha as <-. injection Hb as <-.
    apply (Hbatch (i - length (orderTable w))%nat
             (j - length (orderTable w))%nat o1 o2); [lia | done..].
Qed.

End Properties.

(** ** The theorems at work on the example data *)

Import ImportExamples.

Local Abbreviation run :=
  (ImportService.import Runtime.parseISO Runtime.startOfDay dataProviderGet).
Local Abbreviation duplicates :=
  (ImportService.duplicatesExisting Runtime.parseISO Runtime.startOfDay).
Local Abbreviation known := (ImportService.knownSymbol dataProviderGet).

(** Discharges "no duplicate" and "known symbol" on concrete orders. *)
Ltac no_duplicate := apply no_duplicate_found; vm_compute; reflexivity.
Ltac known_symbol := exists tt; vm_compute; reflexivity.


(** Two orders imported for user-2, while the same purchase is persisted
    for user-1 only. *)
Lemma import_valid_batch_witness :
  (length [buyApple; buyMicrosoft] <= 20)%nat
  /\ (forall o, o ∈ [buyApple; buyMicrosoft] -> ~ duplicates worldWithApple "user-2" o)
  /\ (forall o, o ∈ [buyApple; buyMicrosoft] -> known o)
  /\ run [buyApple; buyMicrosoft] "user-2" worldWithApple =
     (inr tt,
      {| orderTable :=
           [persistedApple;
            orderOf (createInput Runtime.parseISO "user-2" buyApple);
            orderOf (createInput Runtime.parseISO "user-2" buyMicrosoft)];
         calls :=
           [OrdersCall "user-2";
            DataProviderGetCall [("YAHOO", "AAPL")];
            DataProviderGetCall [("YAHOO", "MSFT")];
            CreateOrderCall (createInput Runtime.parseISO "user-2" buyApple);
            CreateOrderCall (createInput Runtime.parseISO "user-2" buyMicrosoft)] |}).
Proof.
  assert (H1 : (length [buyApple; buyMicrosoft] <= 20)%nat) by (simpl; lia).
  assert (H2 : forall o, o ∈ [buyApple; buyMicrosoft] ->
                         ~ duplicates worldWithApple "user-2" o).
  { apply Forall_forall. repeat constructor; no_duplicate. }
  assert (H3 : forall o, o ∈ [buyApple; buyMicrosoft] -> known o).
  { apply Forall_forall. repeat constructor; known_symbol. }
  split_and!; [exact H1 | exact H2 | exact H3 |].
  exact (proj1 (import_valid_batch Runtime.parseISO Runtime.startOfDay
                  dataProviderGet _ _ _ H1 H2 H3)).
Defined.

Lemma import_batch_too_large_witness :
  (20 < length twentyOneOrders)%nat
  /\ run twentyOneOrders "user-1" worldWithApple = (inl BatchTooLarge, worldWithApple).
Proof.
  assert (H : (20 < length twentyOneOrders)%nat) by (vm_compute; lia).
  split; [exact H|].
  exact (import_batch_too_large Runtime.parseISO Runtime.startOfDay
           dataProviderGet _ _ _ H).
Defined.





Lemma import_preserves_no_duplicates_witness :
  NoDuplicateOrders Runtime.startOfDay (orderTable worldWithApple)
  /\ (forall i j o1 o2, (i < j)%nat ->
        [buyMicrosoft; buyApple] !! i = Some o1 ->
        [buyMicrosoft; buyApple] !! j = Some o2 ->
        ~ candidatesShareTuple Runtime.parseISO Runtime.startOfDay o1 o2)
  /\ run [buyMicrosoft; buyApple] "user-2" worldWithApple =
     (inr tt, snd (run [buyMicrosoft; buyApple] "user-2" worldWithApple))
  /\ NoDuplicateOrders Runtime.startOfDay
       (orderTable (snd (run [buyMicrosoft; buyApple] "user-2" worldWithApple))).
Proof.
  assert (H1 : NoDuplicateOrders Runtime.startOfDay (orderTable worldWithApple)).
  { intros i j a b Hij Ha Hb. destruct i; [|done]. destruct j; [lia | done]. }
  assert (H2 : forall i j o1 o2, (i < j)%nat ->
             [buyMicrosoft; buyApple] !! i = Some o1 ->
             [buyMicrosoft; buyApple] !! j = Some o2 ->
             ~ candidatesShareTuple Runtime.parseISO Runtime.startOfDay o1 o2).
  { intros i j o1 o2 Hij Ho1 Ho2.
    destruct i as [|[|i]]; [|destruct j as [|[|j]]; [lia | lia | done] | done].
    destruct j as [|[|j]]; [lia | | done].
    injection Ho1 as <-. injection Ho2 as <-.
    intros (_ & _ & _ & _ & Hsymbol & _). discriminate Hsymbol. }
  assert (H3 : run [buyMicrosoft; buyApple] "user-2" worldWithApple =
               (inr tt, snd (run [buyMicrosoft; buyApple] "user-2" worldWithApple)))
    by (vm_compute; reflexivity).
  split_and!; [exact H1 | exact H2 | exact H3 |].
  exact (import_preserves_no_duplicates Runtime.parseISO Runtime.startOfDay
           dataProviderGet _ _ _ _ H1 H2 H3).
Defined.

(** C5 as stated fails: the same order twice in one batch is imported
    twice. *)
Lemma import_preserves_no_duplicates_counterexample :
  NoDuplicateOrders Runtime.startOfDay (orderTable emptyWorld)
  /\ run [buyApple; buyApple] "user-1" emptyWorld =
     (inr tt,
      {| orderTable :=
           [orderOf (createInput Runtime.parseISO "user-1" buyApple);
            orderOf (createInput Runtime.parseISO "user-1" buyApple)];
         calls :=
           [OrdersCall "user-1";
            DataProviderGetCall [("YAHOO", "AAPL")];
            DataProviderGetCall [("YAHOO", "AAPL")];
            CreateOrderCall (createInput Runtime.parseISO "user-1" buyApple);
            CreateOrderCall (createInput Runtime.parseISO "user-1" buyApple)] |})
  /\ ~ NoDuplicateOrders Runtime.startOfDay
         [orderOf (createInput Runtime.parseISO "user-1" buyApple);
          orderOf (createInput Runtime.parseISO "user-1" buyApple)].
Proof.
  split_and!.
  - intros i j a b _ Ha. destruct i; discriminate Ha.
  - vm_compute. reflexivity.
  - intros H.
    apply (H 0%nat 1%nat _ _ ltac:(lia) eq_refl eq_refl eq_refl).
    unfold sameDedupTuple. split_and!; vm_compute; reflexivity.
Qed.

End ImportProperties.

(** * Properties of the info service *)

Module InfoProperties.
Import InfoService.

Ltac async_unfold :=
  unfold mbind, async_bind, bind, mret, async_ret, ret, throw, tryCatch in *.

Section Properties.
Variable JSON_parse : string -> option JsValue.
Variable JSON_stringify : JsValue -> string.
Variable permissions : Permissions.

Local Abbreviation getStatistics :=
  (InfoService.getStatistics JSON_parse JSON_stringify).
Local Abbreviation getSubscriptions := (InfoService.getSubscriptions JSON_parse).
Local Abbreviation get :=
  (InfoService.get JSON_parse JSON_stringify permissions).
Local Abbreviation cachedStatistics := (InfoService.cachedStatistics JSON_parse).
Local Abbreviation recomputed := (InfoService.recomputed JSON_stringify).

(** The world after further collaborator calls that store nothing. *)
Local Abbreviation calledAll cs w :=
  {| cache := cache w; calls := calls w ++ cs |}.

Lemma countGitHubContributors_outcome this (w : World) :
  countGitHubContributors this w =
  (inr (gitHubContributors this), calledAll (gitHubContributorsCalls this) w).
Proof.
  unfold countGitHubContributors, gitHubContributors, gitHubContributorsCalls,
    httpGet, Logger_error, call, called.
  async_unfold.
  destruct (httpGetJson this gitHubContributorsUrl); simpl;
    by rewrite <- ?app_assoc.
Qed.

Lemma countGitHubStargazers_outcome this (w : World) :
  countGitHubStargazers this w =
  (inr (gitHubStargazers this), calledAll (gitHubStargazersCalls this) w).
Proof.
  unfold countGitHubStargazers, gitHubStargazers, gitHubStargazersCalls,
    destructure_stargazers_count, httpGet, Logger_error, call, called.
  async_unfold.
  destruct (httpGetJson this gitHubRepositoryUrl) as [e|[]]; simpl;
    by rewrite <- ?app_assoc.
Qed.

(** The [try] block of [getStatistics] never throws out of the method: it
    returns the cached statistics or falls through. *)
Lemma getStatistics_try (w : World) :
  tryCatch
    (cached ← redisCacheService_get CACHE_KEY_STATISTICS;
     statistics ← jsonParseCached JSON_parse cached;
     if truthy statistics then ret (Some statistics) else ret None)
    (fun _ => ret None) w =
  (inr (cachedStatistics w), called (CacheGet CACHE_KEY_STATISTICS) w).
Proof.
  unfold InfoService.cachedStatistics, redisCacheService_get, jsonParseCached,
    jsonParse.
  async_unfold. simpl.
  destruct (cache w !! CACHE_KEY_STATISTICS) as [text|]; simpl; [|done].
  destruct (JSON_parse text) as [statistics|]; simpl; [|done].
  by destruct (truthy statistics).
Qed.

(** The two outcomes of [getStatistics] when the feature is enabled. *)
Lemma getStatistics_outcome this (w : World) :
  ENABLE_FEATURE_STATISTICS (configurationService this) = true ->
  getStatistics this w =
  match cachedStatistics w with
  | Some statistics =>
      (inr (Some statistics), called (CacheGet CACHE_KEY_STATISTICS) w)
  | None => (inr (Some (freshStatistics this)), recomputed this w)
  end.
Proof.
  intros Hflag. unfold InfoService.getStatistics. rewrite Hflag. simpl.
  unfold mbind at 1, async_bind at 1, bind at 1.
  rewrite getStatistics_try.
  destruct (cachedStatistics w) as [statistics|]; [reflexivity|].
  unfold countActiveUsers, countNewUsers, redisCacheService_set, call.
  unfold mbind, async_bind, bind.
  simpl. rewrite countGitHubContributors_outcome. simpl.
  rewrite countGitHubStargazers_outcome. simpl.
  unfold mret, async_ret, ret, InfoService.recomputed, recomputationCalls,
    freshStatistics.
  simpl. by rewrite <- !app_assoc.
Qed.

Lemma getStatistics_disabled this (w : World) :
  ENABLE_FEATURE_STATISTICS (configurationService this) = false ->
  getStatistics this w = (inr None, w).
Proof.
  intros Hflag. unfold InfoService.getStatistics. by rewrite Hflag.
Qed.

(** [getStatistics] never throws. *)
Lemma getStatistics_returns this (w : World) :
  exists statistics w', getStatistics this w = (inr statistics, w').
Proof.
  destruct (ENABLE_FEATURE_STATISTICS (configurationService this)) eqn:Hflag.
  - rewrite getStatistics_outcome by done.
    destruct (cachedStatistics w); eauto.
  - rewrite getStatistics_disabled by done. eauto.
Qed.


Lemma recomputation_counters this :
  List.filter isCounterCall (recomputationCalls this) = sixCounters.
Proof.
  unfold recomputationCalls, gitHubContributorsCalls, gitHubStargazersCalls,
    sixCounters.
  destruct (httpGetJson this gitHubContributorsUrl);
    destruct (httpGetJson this gitHubRepositoryUrl) as [|[]]; reflexivity.
Qed.

Lemma freshStatistics_truthy this : truthy (freshStatistics this) = true.
Proof. reflexivity. Qed.

(** The outcomes of [getSubscriptions]. *)
Lemma getSubscriptions_outcome this (w : World) :
  getSubscriptions this w =
  if ENABLE_FEATURE_SUBSCRIPTION (configurationService this) then
    match property this !! "STRIPE_CONFIG" with
    | Some value =>
        match JSON_parse value with
        | Some subscription =>
            (inr (Some [subscription]),
             called (PropertyFindUnique "STRIPE_CONFIG") w)
        | None =>
            (inl (SyntaxError "Unexpected token in JSON"),
             called (PropertyFindUnique "STRIPE_CONFIG") w)
        end
    | None => (inr (Some []), called (PropertyFindUnique "STRIPE_CONFIG") w)
    end
  else (inr None, w).
Proof.
  unfold InfoService.getSubscriptions, property_findUnique, call, jsonParse.
  destruct (ENABLE_FEATURE_SUBSCRIPTION (configurationService this)); [|done].
  async_unfold. simpl.
  destruct (property this !! "STRIPE_CONFIG") as [value|]; [|done].
  by destruct (JSON_parse value).
Qed.


(** C6. With the statistics feature enabled and nothing cached under the
    statistics key, [getStatistics] runs the six counters, stores the
    serialised result under that key as its last call, and returns the
    result. A following call, which finds that entry, returns the same
    statistics after the cache read alone, provided [JSON.parse] reads back
    what [JSON.stringify] wrote. *)
Theorem getStatistics_cache_aside this (w : World) :
  ENABLE_FEATURE_STATISTICS (configurationService this) = true ->
  cache w !! CACHE_KEY_STATISTICS = None ->
  getStatistics this w = (inr (Some (freshStatistics this)), recomputed this w)
  /\ cache (recomputed this w) =
     <[CACHE_KEY_STATISTICS := JSON_stringify (freshStatistics this)]> (cache w)
  /\ (exists computation,
        calls (recomputed this w) =
          calls w ++ CacheGet CACHE_KEY_STATISTICS :: computation
          ++ [CacheSet CACHE_KEY_STATISTICS (JSON_stringify (freshStatistics this))]
        /\ List.filter isCounterCall computation = sixCounters)
  /\ (JSON_parse (JSON_stringify (freshStatistics this)) = Some (freshStatistics this) ->
      getStatistics this (recomputed this w) =
        (inr (Some (freshStatistics this)),
         called (CacheGet CACHE_KEY_STATISTICS) (recomputed this w))).
Proof.
  intros Hflag Hmiss. split_and!.
  - rewrite getStatistics_outcome by done.
    unfold InfoService.cachedStatistics. by rewrite Hmiss.
  - reflexivity.
  - exists (recomputationCalls this). split; [reflexivity|].
    apply recomputation_counters.
  - intros Hroundtrip. rewrite getStatistics_outcome by done.
    unfold InfoService.cachedStatistics. simpl.
    rewrite lookup_insert_eq, Hroundtrip. reflexivity.
Qed.

(** C7, amended. A cached text that parses to a truthy value is returned
    at once, after the cache read alone. On a cache miss, on a text that
    does not parse, and on a text that parses to a falsy value,
    [getStatistics] recomputes the statistics and returns them; it does not
    throw. *)
Theorem getStatistics_cached_value this (w : World) :
  ENABLE_FEATURE_STATISTICS (configurationService this) = true ->
  (forall text statistics,
     cache w !! CACHE_KEY_STATISTICS = Some text ->
     JSON_parse text = Some statistics ->
     truthy statistics = true ->
     getStatistics this w =
       (inr (Some statistics), called (CacheGet CACHE_KEY_STATISTICS) w))
  /\ (cache w !! CACHE_KEY_STATISTICS = None
      \/ (exists text,
            cache w !! CACHE_KEY_STATISTICS = Some text
            /\ (JSON_parse text = None
                \/ exists statistics,
                     JSON_parse text = Some statistics
                     /\ truthy statistics = false)) ->
      getStatistics this w =
        (inr (Some (freshStatistics this)), recomputed this w)).
Proof.
  intros Hflag. split.
  - intros text statistics Hhit Hparse Htruthy.
    rewrite getStatistics_outcome by done.
    unfold InfoService.cachedStatistics. by rewrite Hhit, Hparse, Htruthy.
  - intros Hmiss. rewrite getStatistics_outcome by done.
    unfold InfoService.cachedStatistics.
    destruct Hmiss as [-> | (text & -> & [-> | (statistics & -> & ->)])]; done.
Qed.

(** C8. Whatever the two GitHub requests answer, a rejected request is
    logged and its counter yields [undefined]; neither counter throws, and
    neither does [getStatistics], whose recomputed statistics then lack the
    field of the failed counter. *)
Theorem gitHub_failures_are_contained this (w : World) :
  (forall error,
     httpGetJson this gitHubContributorsUrl = inl error ->
     countGitHubContributors this w =
       (inr None,
        calledAll [HttpGet gitHubContributorsUrl; LoggerError error] w))
  /\ (forall error,
        httpGetJson this gitHubRepositoryUrl = inl error ->
        countGitHubStargazers this w =
          (inr None,
           calledAll [HttpGet gitHubRepositoryUrl; LoggerError error] w))
  /\ (exists count w', countGitHubContributors this w = (inr count, w'))
  /\ (exists count w', countGitHubStargazers this w = (inr count, w'))
  /\ (exists statistics w', getStatistics this w = (inr statistics, w'))
  /\ (ENABLE_FEATURE_STATISTICS (configurationService this) = true ->
      cachedStatistics w = None ->
      exists props w',
        getStatistics this w = (inr (Some (JObject props)), w')
        /\ (forall error,
              httpGetJson this gitHubContributorsUrl = inl error ->
              ownProperty "gitHubContributors" props = None
              /\ LoggerError error ∈ calls w')
        /\ (forall error,
              httpGetJson this gitHubRepositoryUrl = inl error ->
              ownProperty "gitHubStargazers" props = None
              /\ LoggerError error ∈ calls w')).
Proof.
  split_and!.
  - intros error Hfail. rewrite countGitHubContributors_outcome.
    unfold gitHubContributors, gitHubContributorsCalls. by rewrite Hfail.
  - intros error Hfail. rewrite countGitHubStargazers_outcome.
    unfold gitHubStargazers, gitHubStargazersCalls. by rewrite Hfail.
  - rewrite countGitHubContributors_outcome. eauto.
  - rewrite countGitHubStargazers_outcome. eauto.
  - apply getStatistics_returns.
  - intros Hflag Hmiss. rewrite getStatistics_outcome, Hmiss by done.
    eexists _, _. split; [reflexivity|]. split; intros error Hfail.
    + split.
      * unfold gitHubContributors. rewrite Hfail. simpl.
        by destruct (gitHubStargazers this).
      * simpl. unfold recomputationCalls, gitHubContributorsCalls.
        rewrite Hfail. set_solver.
    + split.
      * unfold gitHubStargazers. rewrite Hfail. simpl.
        by destruct (gitHubContributors this).
      * simpl. unfold recomputationCalls, gitHubStargazersCalls.
        rewrite Hfail. set_solver.
Qed.

(** C9, amended. The subscriptions are [undefined] when the subscription
    feature is disabled; with the feature enabled they are the empty list
    when no property is stored under the key, and the one-element list of
    the parsed value of the property when one is stored and its value
    parses. When the value does not parse, [getSubscriptions] throws the
    [SyntaxError] of [JSON.parse]. *)
Theorem getSubscriptions_cases this (w : World) :
  (ENABLE_FEATURE_SUBSCRIPTION (configurationService this) = false ->
   getSubscriptions this w = (inr None, w))
  /\ (ENABLE_FEATURE_SUBSCRIPTION (configurationService this) = true ->
      property this !! "STRIPE_CONFIG" = None ->
      getSubscriptions this w =
        (inr (Some []), called (PropertyFindUnique "STRIPE_CONFIG") w))
  /\ (forall value subscription,
        ENABLE_FEATURE_SUBSCRIPTION (configurationService this) = true ->
        property this !! "STRIPE_CONFIG" = Some value ->
        JSON_parse value = Some subscription ->
        getSubscriptions this w =
          (inr (Some [subscription]),
           called (PropertyFindUnique "STRIPE_CONFIG") w))
  /\ (forall value,
        ENABLE_FEATURE_SUBSCRIPTION (configurationService this) = true ->
        property this !! "STRIPE_CONFIG" = Some value ->
        JSON_parse value = None ->
        getSubscriptions this w =
          (inl (SyntaxError "Unexpected token in JSON"),
           called (PropertyFindUnique "STRIPE_CONFIG") w)).
Proof.
  rewrite getSubscriptions_outcome. split_and!.
  - by intros ->.
  - by intros -> ->.
  - by intros value subscription -> -> ->.
  - by intros value -> -> ->.
Qed.

(** [get] in terms of its two sub-routines that can differ between two
    deployments. *)
Lemma get_outcome this (w : World) :
  get this w =
  let config := configurationService this in
  match getStatistics this
          (called GetLastDataGathering (called PlatformFindMany w)) with
  | (inl e, w') => (inl e, w')
  | (inr statistics, w') =>
      match getSubscriptions this w' with
      | (inl e, w'') => (inl e, w'')
      | (inr subscriptions, w'') =>
          (inr {| stripePublicKey :=
                    if ENABLE_FEATURE_SUBSCRIPTION config
                    then Some (STRIPE_PUBLIC_KEY config) else None;
                  globalPermissions :=
                    pushIf (ENABLE_FEATURE_SUBSCRIPTION config)
                      (enableSubscription permissions)
                      (pushIf (ENABLE_FEATURE_STATISTICS config)
                         (enableStatistics permissions)
                         (pushIf (ENABLE_FEATURE_SOCIAL_LOGIN config)
                            (enableSocialLogin permissions)
                            (pushIf (ENABLE_FEATURE_IMPORT config)
                               (enableImport permissions)
                               (pushIf (ENABLE_FEATURE_BLOG config)
                                  (enableBlog permissions) []))));
                  platforms := platform_findMany this;
                  currencies := exchangeRateDataService_getCurrencies this;
                  demoAuthToken := jwtService_sign this DEMO_USER_ID;
                  lastDataGathering :=
                    dataGatheringService_getLastDataGathering this;
                  primaryDataSource :=
                    dataProviderService_getPrimaryDataSource this;
                  statistics := statistics;
                  subscriptions := subscriptions |},
           w'')
      end
  end.
Proof.
  unfold InfoService.get, getLastDataGathering, call.
  unfold mbind at 1 2 3 4, async_bind at 1 2 3 4, bind at 1 2 3 4. simpl.
  destruct (getStatistics this _) as [[e|statistics] w']; [done|].
  by destruct (getSubscriptions this w') as [[e|subscriptions] w''].
Qed.






(** [get] throws only for a stored Stripe configuration that does not
    parse, with the subscription feature enabled. *)
Lemma get_throws_only_on_stripe_config this (w w' : World) e :
  get this w = (inl e, w') ->
  ENABLE_FEATURE_SUBSCRIPTION (configurationService this) = true
  /\ exists value,
       property this !! "STRIPE_CONFIG" = Some value /\ JSON_parse value = None.
Proof.
  rewrite get_outcome. cbv zeta.
  destruct (getStatistics_returns this
              (called GetLastDataGathering (called PlatformFindMany w)))
    as (statistics & w1 & ->).
  rewrite getSubscriptions_outcome.
  destruct (ENABLE_FEATURE_SUBSCRIPTION (configurationService this)); [|done].
  destruct (property this !! "STRIPE_CONFIG") as [value|]; [|done].
  destruct (JSON_parse value) eqn:Hparse; [done|]. eauto.
Qed.

End Properties.

(** ** The theorems at work on the example data *)

Import InfoExamples.

Local Abbreviation runStatistics :=
  (InfoService.getStatistics Runtime.JSON_parse Runtime.JSON_stringify).
Local Abbreviation runSubscriptions :=
  (InfoService.getSubscriptions Runtime.JSON_parse).
Local Abbreviation runGet :=
  (InfoService.get Runtime.JSON_parse Runtime.JSON_stringify permissions).
Local Abbreviation recomputedBy :=
  (InfoService.recomputed Runtime.JSON_stringify).

Lemma deployment_statistics : freshStatistics deployment = deploymentStatistics.
Proof. vm_compute. reflexivity. Qed.

Lemma isolated_statistics :
  freshStatistics isolatedDeployment = isolatedStatistics.
Proof. vm_compute. reflexivity. Qed.

(** A first call on a cold cache, and the call after it. *)
Lemma getStatistics_cache_aside_witness :
  ENABLE_FEATURE_STATISTICS (configurationService deployment) = true
  /\ cache coldWorld !! CACHE_KEY_STATISTICS = None
  /\ Runtime.JSON_parse (Runtime.JSON_stringify (freshStatistics deployment)) =
     Some (freshStatistics deployment)
  /\ runStatistics deployment coldWorld =
     (inr (Some (freshStatistics deployment)), recomputedBy deployment coldWorld)
  /\ runStatistics deployment (recomputedBy deployment coldWorld) =
     (inr (Some (freshStatistics deployment)),
      called (CacheGet CACHE_KEY_STATISTICS) (recomputedBy deployment coldWorld)).
Proof.
  assert (H1 : ENABLE_FEATURE_STATISTICS (configurationService deployment) = true)
    by reflexivity.
  assert (H2 : cache coldWorld !! CACHE_KEY_STATISTICS = None)
    by (vm_compute; reflexivity).
  assert (H3 : Runtime.JSON_parse
                 (Runtime.JSON_stringify (freshStatistics deployment)) =
               Some (freshStatistics deployment))
    by (vm_compute; reflexivity).
  destruct (getStatistics_cache_aside Runtime.JSON_parse Runtime.JSON_stringify
              deployment coldWorld H1 H2) as (Hfirst & _ & _ & Hsecond).
  split_and!; [exact H1 | exact H2 | exact H3 | exact Hfirst | exact (Hsecond H3)].
Defined.

(** Cached statistics are returned as they are; a cached text that is no
    JSON is replaced. *)
Lemma getStatistics_cached_value_witness :
  ENABLE_FEATURE_STATISTICS (configurationService isolatedDeployment) = true
  /\ runStatistics isolatedDeployment
       (cachedWorld (Runtime.JSON_stringify olderStatistics)) =
     (inr (Some olderStatistics),
      called (CacheGet CACHE_KEY_STATISTICS)
        (cachedWorld (Runtime.JSON_stringify olderStatistics)))
  /\ Runtime.JSON_parse "{oops" = None
  /\ runStatistics isolatedDeployment (cachedWorld "{oops") =
     (inr (Some (freshStatistics isolatedDeployment)),
      recomputedBy isolatedDeployment (cachedWorld "{oops")).
Proof.
  assert (H1 : ENABLE_FEATURE_STATISTICS
                 (configurationService isolatedDeployment) = true)
    by reflexivity.
  assert (H2 : Runtime.JSON_parse "{oops" = None) by (vm_compute; reflexivity).
  split_and!; [exact H1 | | exact H2 |].
  - apply (proj1 (getStatistics_cached_value Runtime.JSON_parse
                    Runtime.JSON_stringify isolatedDeployment _ H1)
             (Runtime.JSON_stringify olderStatistics));
      vm_compute; reflexivity.
  - apply (proj2 (getStatistics_cached_value Runtime.JSON_parse
                    Runtime.JSON_stringify isolatedDeployment _ H1)).
    right. exists "{oops". split; [vm_compute; reflexivity | left; exact H2].
Defined.

(** C7 as stated fails: the cached text [null] parses, to the value
    [null], and [getStatistics] recomputes instead of returning it. *)
Lemma getStatistics_cached_value_counterexample :
  ENABLE_FEATURE_STATISTICS (configurationService deployment) = true
  /\ cache (cachedWorld "null") !! CACHE_KEY_STATISTICS = Some "null"
  /\ Runtime.JSON_parse "null" = Some JNull
  /\ runStatistics deployment (cachedWorld "null") =
     (inr (Some deploymentStatistics), recomputedBy deployment (cachedWorld "null"))
  /\ Some deploymentStatistics <> Some JNull
  /\ List.filter isCounterCall
       (calls (recomputedBy deployment (cachedWorld "null"))) = sixCounters.
Proof.
  split_and!; [reflexivity | vm_compute; reflexivity | vm_compute; reflexivity
              | vm_compute; reflexivity | discriminate | vm_compute; reflexivity].
Qed.

(** Both requests rejected: two log entries, statistics without the two
    GitHub fields. *)
Lemma gitHub_failures_are_contained_witness :
  countGitHubContributors isolatedDeployment coldWorld =
    (inr None,
     {| cache := ∅;
        calls := [HttpGet gitHubContributorsUrl;
                  LoggerError (Rejection "ECONNREFUSED")] |})
  /\ countGitHubStargazers isolatedDeployment coldWorld =
       (inr None,
        {| cache := ∅;
           calls := [HttpGet gitHubRepositoryUrl;
                     LoggerError (Rejection "ECONNREFUSED")] |})
  /\ exists props w',
       runStatistics isolatedDeployment coldWorld = (inr (Some (JObject props)), w')
       /\ ownProperty "gitHubContributors" props = None
       /\ ownProperty "gitHubStargazers" props = None
       /\ LoggerError (Rejection "ECONNREFUSED") ∈ calls w'.
Proof.
  destruct (gitHub_failures_are_contained Runtime.JSON_parse
              Runtime.JSON_stringify isolatedDeployment coldWorld)
    as (Hcontributors & Hstargazers & _ & _ & _ & Hrecomputed).
  split_and!;
    [exact (Hcontributors _ eq_refl) | exact (Hstargazers _ eq_refl) |].
  destruct (Hrecomputed eq_refl eq_refl)
    as (props & w' & Hreturned & Hfield1 & Hfield2).
  exists props, w'.
  destruct (Hfield1 _ eq_refl) as [Hmissing1 Hlogged].
  destruct (Hfield2 _ eq_refl) as [Hmissing2 _].
  split_and!; [exact Hreturned | exact Hmissing1 | exact Hmissing2 | exact Hlogged].
Defined.

(** The three cases that return, on three deployments. *)
Lemma getSubscriptions_cases_witness :
  runSubscriptions
    (withFlag FeatureSubscription false deployment) coldWorld = (inr None, coldWorld)
  /\ runSubscriptions isolatedDeployment coldWorld =
     (inr (Some []), called (PropertyFindUnique "STRIPE_CONFIG") coldWorld)
  /\ runSubscriptions deployment coldWorld =
     (inr (Some [stripeConfig]),
      called (PropertyFindUnique "STRIPE_CONFIG") coldWorld).
Proof.
  split_and!.
  - apply (proj1 (getSubscriptions_cases Runtime.JSON_parse _ _)).
    reflexivity.
  - apply (proj1 (proj2 (getSubscriptions_cases Runtime.JSON_parse _ _)));
      [reflexivity | vm_compute; reflexivity].
  - apply (proj1 (proj2 (proj2 (getSubscriptions_cases Runtime.JSON_parse _ _)))
             (Runtime.JSON_stringify stripeConfig));
      [reflexivity | vm_compute; reflexivity | vm_compute; reflexivity].
Defined.

(** C9 as stated fails: with the feature enabled and a property stored
    whose value is no JSON, there is no result; [getSubscriptions] throws. *)
Lemma getSubscriptions_cases_counterexample :
  ENABLE_FEATURE_SUBSCRIPTION (configurationService misconfiguredDeployment) = true
  /\ property misconfiguredDeployment !! "STRIPE_CONFIG" = Some "{oops"
  /\ Runtime.JSON_parse "{oops" = None
  /\ runSubscriptions misconfiguredDeployment coldWorld =
     (inl (SyntaxError "Unexpected token in JSON"),
      called (PropertyFindUnique "STRIPE_CONFIG") coldWorld).
Proof.
  split_and!; [reflexivity | vm_compute; reflexivity | vm_compute; reflexivity
              | vm_compute; reflexivity].
Qed.


End InfoProperties.

(** * Further properties of the import service *)

Module ImportExtras.
Import ImportService ImportVocabulary ImportProperties.

(** ** The error messages *)

Lemma pretty_N_char_digit (x : N) : isDecimalDigit (pretty_N_char x) = true.
Proof. unfold pretty_N_char. by repeat case_match. Qed.

Lemma pretty_N_go_digits (x : N) : forall s,
  allDecimalDigits s = true -> allDecimalDigits (pretty_N_go x s) = true.
Proof.
  induction (N.lt_wf_0 x) as [x _ IH]; intros s Hs.
  destruct (decide (x = 0)%N) as [->|Hx].
  - by rewrite pretty_N_go_0.
  - rewrite pretty_N_go_step by lia. apply IH.
    + apply N.div_lt; lia.
    + simpl. by rewrite pretty_N_char_digit.
Qed.

Lemma pretty_nat_digits (n : nat) : allDecimalDigits (pretty n) = true.
Proof.
  unfold pretty, pretty_nat, pretty, pretty_N.
  case_decide; [done|]. by apply pretty_N_go_digits.
Qed.

(** A run of digits followed by something else splits in one way. *)
Lemma digits_prefix_unique (d1 : string) : forall d2 r1 r2,
  allDecimalDigits d1 = true -> allDecimalDigits d2 = true ->
  startsWithoutDigit r1 = true -> startsWithoutDigit r2 = true ->
  d1 +:+ r1 = d2 +:+ r2 -> d1 = d2 /\ r1 = r2.
Proof.
  induction d1 as [|c1 d1 IH]; intros [|c2 d2] r1 r2 H1 H2 Hr1 Hr2 Heq;
    simpl in *.
  - done.
  - unfold String.app in Heq. simpl in Heq. subst r1. simpl in Hr1.
    apply andb_prop in H2 as [Hc2 _]. by rewrite Hc2 in Hr1.
  - unfold String.app in Heq. simpl in Heq. subst r2. simpl in Hr2.
    apply andb_prop in H1 as [Hc1 _]. by rewrite Hc1 in Hr2.
  - apply andb_prop in H1 as [_ H1]. apply andb_prop in H2 as [_ H2].
    unfold String.app in Heq. simpl in Heq. injection Heq as -> Heq.
    destruct (IH d2 r1 r2 H1 H2 Hr1 Hr2 Heq) as [-> ->]. done.
Qed.

(** The text after ["orders."] in the two messages that name an index. *)
Lemma index_message_inv (i j : nat) (r1 r2 : string) :
  startsWithoutDigit r1 = true -> startsWithoutDigit r2 = true ->
  Error ("orders." +:+ pretty i +:+ r1) = Error ("orders." +:+ pretty j +:+ r2) ->
  i = j /\ r1 = r2.
Proof.
  intros Hr1 Hr2 Heq. injection Heq as Heq.
  change (pretty i +:+ r1 = pretty j +:+ r2) in Heq.
  destruct (digits_prefix_unique _ _ _ _ (pretty_nat_digits i)
              (pretty_nat_digits j) Hr1 Hr2 Heq) as [Hij Hr].
  split; [|done]. by apply (inj pretty).
Qed.

(** X6. The message of a validation error tells its kind and the index it
    names: two errors with the same message are of the same kind and name
    the same index. *)
Theorem error_message_names_kind_and_index (e1 e2 : ValidationError) :
  errorOf e1 = errorOf e2 ->
  sameKind e1 e2 = true /\ indexOf e1 = indexOf e2.
Proof.
  intros Heq.
  destruct e1 as [|i|i s d], e2 as [|j|j s' d']; simpl in *;
    try (split; reflexivity);
    try (exfalso; injection Heq as Heq; unfold String.app in Heq;
         simpl in Heq; discriminate Heq).
  - apply index_message_inv in Heq as [-> _]; done.
  - apply index_message_inv in Heq as [_ Hr]; [|done..].
    unfold String.app in Hr. simpl in Hr. discriminate Hr.
  - apply index_message_inv in Heq as [_ Hr]; [|done..].
    unfold String.app in Hr. simpl in Hr. discriminate Hr.
  - apply index_message_inv in Heq as [-> _]; done.
Qed.

Lemma error_message_names_kind_and_index_witness :
  errorOf (Invalid 12 "AAPL" "YAHOO") = errorOf (Invalid 12 "AAPL" "YAHOO")
  /\ sameKind (Invalid 12 "AAPL" "YAHOO") (Invalid 12 "AAPL" "YAHOO") = true
  /\ indexOf (Invalid 12 "AAPL" "YAHOO") = indexOf (Invalid 12 "AAPL" "YAHOO").
Proof.
  split; [reflexivity|].
  exact (error_message_names_kind_and_index _ _ eq_refl).
Defined.

Lemma elem_of_middle {A} (x : A) (l1 l2 : list A) : x ∈ l1 ++ x :: l2.
Proof. apply elem_of_app. right. apply elem_of_cons. by left. Qed.

Section Properties.
Variable parseISO : string -> JsDate.
Variable startOfDay : Z -> Z.
Context {DataProviderResponse : Type}.
Variable dataProviderGet :
  list (string * string) -> gmap string DataProviderResponse.

Local Abbreviation isDuplicateOf := (ImportService.isDuplicateOf parseISO startOfDay).
Local Abbreviation duplicatesExisting :=
  (ImportService.duplicatesExisting parseISO startOfDay).
Local Abbreviation knownSymbol := (ImportService.knownSymbol dataProviderGet).
Local Abbreviation validateOrders :=
  (ImportService.validateOrders parseISO startOfDay dataProviderGet).
Local Abbreviation createInput := (ImportService.createInput parseISO).
Local Abbreviation import_ :=
  (ImportService.import parseISO startOfDay dataProviderGet).
Local Abbreviation import_fallible :=
  (ImportService.import_fallible parseISO startOfDay dataProviderGet).
Local Abbreviation outcome :=
  (ImportProperties.import_outcome parseISO startOfDay dataProviderGet).
Local Abbreviation calledAll cs w :=
  {| orderTable := orderTable w; calls := calls w ++ cs |}.

(** The body of the persistence loop over a service that may throw. *)
Local Abbreviation persist refusal userId :=
  (fun o : ImportOrder =>
     orderService_createOrder_fallible refusal (createInput userId o);; ret tt).

(** What validation returns and the world it leaves: when it ran at all,
    the read of the existing orders followed by the lookups for a prefix of
    the batch, the whole batch when it returns. *)
Lemma validateOrders_world orders userId (w : World) :
  if bool_decide (MAX_ORDERS_TO_IMPORT < length orders)%nat
  then validateOrders orders userId w = (inl BatchTooLarge, w)
  else exists n,
         (n <= length orders)%nat
         /\ (fst (validateOrders orders userId w) = inr tt -> n = length orders)
         /\ snd (validateOrders orders userId w) =
            calledAll (OrdersCall userId :: map lookupCall (take n orders)) w.
Proof.
  rewrite validateOrders_unfold. case_bool_decide as Hlen; [done|].
  set (existing := merge_sort newerFirst _).
  destruct (first_failure parseISO startOfDay dataProviderGet existing orders)
    as [Hall | (l1 & o & l2 & -> & Hall & [Hdup | [Hnd Hunknown]])].
  - exists (length orders). split; [done|]. split; [done|].
    rewrite (validate_loop_passes parseISO startOfDay dataProviderGet) by done.
    rewrite firstn_all. simpl. by rewrite <- app_assoc.
  - exists (length l1). split; [rewrite length_app; lia|].
    rewrite (validate_loop_duplicate parseISO startOfDay dataProviderGet)
      by done.
    split; [discriminate|].
    rewrite take_app_length. simpl. by rewrite <- app_assoc.
  - exists (S (length l1)). split; [rewrite length_app; simpl; lia|].
    rewrite (validate_loop_unknown parseISO startOfDay dataProviderGet)
      by done.
    split; [discriminate|].
    assert (Htake : take (S (length l1)) (l1 ++ o :: l2) = l1 ++ [o]).
    { rewrite (cons_middle o l1 l2), app_assoc. apply take_app_length'.
      rewrite length_app. simpl. lia. }
    rewrite Htake. simpl. by rewrite <- app_assoc.
Qed.

(** X1. Validation only reads, and how much it reads is decided by the size
    of the batch. On a batch of more than 20 orders it fails with
    [BatchTooLarge] and calls nothing at all. On any other batch, however
    it ends, it leaves the order table as it was, reads the existing orders
    once and then looks up the symbols of a prefix of the batch, one lookup
    per order, in batch order, the whole batch when it returns; it never
    calls [createOrder]. *)
Theorem validateOrders_only_reads orders userId (w : World) :
  if bool_decide (20 < length orders)%nat
  then validateOrders orders userId w = (inl BatchTooLarge, w)
  else exists n,
         (n <= length orders)%nat
         /\ (fst (validateOrders orders userId w) = inr tt -> n = length orders)
         /\ snd (validateOrders orders userId w) =
            calledAll (OrdersCall userId :: map lookupCall (take n orders)) w
         /\ Forall (fun c => isCreateOrderCall c = false)
              (OrdersCall userId :: map lookupCall (take n orders)).
Proof.
  pose proof (validateOrders_world orders userId w) as H.
  unfold MAX_ORDERS_TO_IMPORT in H.
  case_bool_decide; [exact H|].
  destruct H as (n & Hn & Hret & Hw). exists n. split_and!; [done..|].
  constructor; [done | apply lookupCall_not_create].
Qed.

(** X2. Validation lets a batch through exactly when it has at most 20
    orders and every order is no duplicate of an order persisted for the
    user and passes the symbol check: its lookup result has an entry under
    its symbol, or its symbol is the name of a member every object inherits
    from [Object.prototype]. *)
Theorem validateOrders_returns_iff orders userId (w : World) :
  fst (validateOrders orders userId w) = inr tt
  <-> (length orders <= 20)%nat
      /\ forall o, o ∈ orders ->
           ~ duplicatesExisting w userId o
           /\ (knownSymbol o \/ symbol o ∈ objectPrototypeMembers).
Proof.
  rewrite validateOrders_unfold. unfold MAX_ORDERS_TO_IMPORT.
  case_bool_decide as Hlen.
  { simpl. split; [discriminate | lia]. }
  set (existing := merge_sort newerFirst _).
  destruct (first_failure parseISO startOfDay dataProviderGet existing orders)
    as [Hall | (l1 & o & l2 & -> & Hall & [Hdup | [Hnd Hunknown]])].
  - rewrite (validate_loop_passes parseISO startOfDay dataProviderGet) by done.
    simpl. split; [intros _ | done]. split; [lia|]. intros o Ho.
    rewrite <- (symbolAccepted_iff dataProviderGet).
    apply (passes_iff parseISO startOfDay dataProviderGet).
    revert o Ho. by apply Forall_forall.
  - rewrite (validate_loop_duplicate parseISO startOfDay dataProviderGet)
      by done.
    simpl. split; [discriminate|]. intros [_ Hvalid]. exfalso. apply Hdup.
    apply (no_duplicate_found parseISO startOfDay).
    apply Hvalid, elem_of_middle.
  - rewrite (validate_loop_unknown parseISO startOfDay dataProviderGet)
      by done.
    simpl. split; [discriminate|]. intros [_ Hvalid]. exfalso. apply Hunknown.
    apply (symbolAccepted_iff dataProviderGet).
    apply Hvalid, elem_of_middle.
Qed.

(** X3. Import fails with [BatchTooLarge] exactly for the batches of more
    than 20 orders; a batch of 20 is not too large. *)
Theorem import_too_large_iff orders userId (w : World) :
  fst (import_ orders userId w) = inl BatchTooLarge <-> (20 < length orders)%nat.
Proof.
  destruct (outcome orders userId w)
    as [[Hlarge H] | [(Hlen & _ & H) | [(l1 & o & l2 & Hlen & _ & _ & _ & H)
                                       | (l1 & o & l2 & Hlen & _ & _ & _ & _ & H)]]];
    rewrite H; simpl; unfold MAX_ORDERS_TO_IMPORT in *.
  - done.
  - split; [discriminate | lia].
  - split; [|lia]. intros Heq. exfalso. injection Heq as Heq.
    unfold String.app in Heq. simpl in Heq. discriminate Heq.
  - split; [|lia]. intros Heq. exfalso. injection Heq as Heq.
    unfold String.app in Heq. simpl in Heq. discriminate Heq.
Qed.

(** One turn of the persistence loop over a service that may throw. *)
Lemma persist_step refusal userId o (l : list ImportOrder) (w : World) :
  forOf (persist refusal userId) (o :: l) w =
  if refusal w (createInput userId o) is Some e
  then (inl e, called (CreateOrderCall (createInput userId o)) w)
  else forOf (persist refusal userId) l
         {| orderTable := orderTable w ++ [orderOf (createInput userId o)];
            calls := calls w ++ [CreateOrderCall (createInput userId o)] |}.
Proof.
  simpl. async_unfold.
  unfold orderService_createOrder_fallible, orderService_createOrder.
  by destruct (refusal w (createInput userId o)).
Qed.

(** The persistence loop over a service that may throw stops at the first
    order the service refuses and keeps the records stored before it. *)
Lemma create_loop_fallible refusal userId (l : list ImportOrder) : forall w,
  exists k,
    (k <= length l)%nat
    /\ orderTable (snd (forOf (persist refusal userId) l w)) =
       orderTable w ++ map (fun o => orderOf (createInput userId o)) (take k l)
    /\ match fst (forOf (persist refusal userId) l w) with
       | inr _ => k = length l
       | inl e =>
           exists o wk,
             l !! k = Some o
             /\ orderTable wk =
                orderTable w ++ map (fun o => orderOf (createInput userId o)) (take k l)
             /\ refusal wk (createInput userId o) = Some e
       end.
Proof.
  induction l as [|o l IH]; intros w.
  - exists 0%nat. simpl. by rewrite app_nil_r.
  - rewrite persist_step.
    destruct (refusal w (createInput userId o)) as [e|] eqn:Hrefusal.
    + exists 0%nat. simpl. split_and!; [lia | by rewrite app_nil_r |].
      exists o, w. by rewrite app_nil_r.
    + destruct (IH {| orderTable := orderTable w ++ [orderOf (createInput userId o)];
                      calls := calls w ++ [CreateOrderCall (createInput userId o)] |})
        as (k & Hk & Htable & Hresult).
      exists (S k). split_and!; [simpl; lia | |].
      * rewrite Htable. simpl. by rewrite <- app_assoc.
      * destruct (fst (forOf _ l _)) as [e|[]].
        -- destruct Hresult as (o' & wk & Ho' & Hwk & He).
           exists o', wk. split_and!; [done | | done].
           rewrite Hwk. simpl. by rewrite <- app_assoc.
        -- simpl. by rewrite Hresult.
Qed.

(** A persistence service that refuses nothing gives [import] itself. *)
Lemma persist_never_refused userId (l : list ImportOrder) : forall w : World,
  forOf (persist (fun _ _ => None) userId) l w =
  forOf (fun o => orderService_createOrder (createInput userId o);; ret tt) l w.
Proof.
  induction l as [|o l IH]; intros w; [done|].
  rewrite persist_step, IH. reflexivity.
Qed.

Lemma import_fallible_never_refused orders userId (w : World) :
  import_fallible (fun _ _ => None) orders userId w = import_ orders userId w.
Proof.
  rewrite import_unfold. unfold ImportService.import_fallible.
  unfold mbind at 1, async_bind at 1, bind at 1.
  destruct (validateOrders orders userId w) as [[e|[]] w1]; [done|].
  apply persist_never_refused.
Qed.

(** X4. Import only appends, only for the given user, and takes nothing
    back: whether [createOrder] stores or throws, the table after import is
    the table before, in place, followed by the records of the first [k]
    orders of the batch, in batch order and all of the user. [k] is 0 when
    validation fails, and import then fails with the error of validation; it
    is the size of the batch when import returns; and when [createOrder]
    throws it is the index of the order refused, import failing with that
    error while the records of the orders before stay stored. *)
Theorem import_appends_prefix refusal orders userId (w : World) :
  exists k,
    (k <= length orders)%nat
    /\ orderTable (snd (import_fallible refusal orders userId w)) =
       orderTable w ++ map (fun o => orderOf (createInput userId o)) (take k orders)
    /\ Forall (fun order => Order.userId order = userId)
         (map (fun o => orderOf (createInput userId o)) (take k orders))
    /\ match fst (validateOrders orders userId w),
             fst (import_fallible refusal orders userId w) with
       | inl e, result => result = inl e /\ k = 0%nat
       | inr _, inr _ => k = length orders
       | inr _, inl e =>
           exists o wk,
             orders !! k = Some o
             /\ orderTable wk =
                orderTable w
                ++ map (fun o => orderOf (createInput userId o)) (take k orders)
             /\ refusal wk (createInput userId o) = Some e
       end.
Proof.
  assert (Huser : forall k,
            Forall (fun order => Order.userId order = userId)
              (map (fun o => orderOf (createInput userId o)) (take k orders))).
  { intros k. apply Forall_forall.
    intros order (o & -> & _)%list_elem_of_fmap. done. }
  assert (Htable : orderTable (snd (validateOrders orders userId w)) = orderTable w).
  { pose proof (validateOrders_world orders userId w) as H.
    case_bool_decide; [by rewrite H|]. by destruct H as (n & _ & _ & ->). }
  unfold ImportService.import_fallible. async_unfold.
  destruct (validateOrders orders userId w) as [[e|[]] w1]; simpl in *.
  - exists 0%nat. rewrite take_0. simpl. rewrite app_nil_r.
    split; [lia|]. split; [done|]. split; [constructor | done].
  - destruct (create_loop_fallible refusal userId orders w1)
      as (k & Hk & Hstored & Hresult).
    rewrite Htable in Hstored, Hresult.
    exists k. split; [done|]. split; [done|]. split; [apply Huser | exact Hresult].
Qed.

(** X5. The outcome of an import depends on the persisted orders of the
    given user only: two worlds with the same orders of that user, whatever
    else they hold, give the same result, success or the same error. *)
Theorem import_ignores_other_users orders userId (w1 w2 : World) :
  ordersOfUser userId w1 = ordersOfUser userId w2 ->
  fst (import_ orders userId w1) = fst (import_ orders userId w2).
Proof.
  unfold ordersOfUser. intros Hsame.
  rewrite !import_unfold, !validateOrders_unfold.
  case_bool_decide as Hlen; [done|]. rewrite <- Hsame.
  set (existing := merge_sort newerFirst _).
  destruct (first_failure parseISO startOfDay dataProviderGet existing orders)
    as [Hall | (l1 & o & l2 & -> & Hall & [Hdup | [Hnd Hunknown]])].
  - rewrite !(validate_loop_passes parseISO startOfDay dataProviderGet) by done.
    by rewrite !create_loop.
  - by rewrite !(validate_loop_duplicate parseISO startOfDay dataProviderGet)
      by done.
  - by rewrite !(validate_loop_unknown parseISO startOfDay dataProviderGet)
      by done.
Qed.

(** X7. Importing a batch a second time is rejected at its first order:
    after a successful import, the same batch for the same user fails with
    [DuplicateOrder 0] and stores nothing, provided the date of that first
    order parses and its three numbers equal themselves (none is [NaN]). *)
Theorem import_twice_is_rejected o rest userId (w w' : World) :
  import_ (o :: rest) userId w = (inr tt, w') ->
  is_Some (parseISO (date o)) ->
  strictEq (fee o) (fee o) = true ->
  strictEq (quantity o) (quantity o) = true ->
  strictEq (unitPrice o) (unitPrice o) = true ->
  import_ (o :: rest) userId w' =
    (inl (DuplicateOrder 0), calledAll [OrdersCall userId] w').
Proof.
  intros Hfirst [t Ht] Hfee Hquantity HunitPrice.
  assert (Hdup : duplicatesExisting w' userId o).
  { exists (orderOf (createInput userId o)). split_and!; [|done|].
    - destruct (outcome (o :: rest) userId w)
        as [[_ H] | [(_ & _ & H) | [(l1 & o' & l2 & _ & _ & _ & _ & H)
                                   | (l1 & o' & l2 & _ & _ & _ & _ & _ & H)]]];
        rewrite H in Hfirst; inversion Hfirst; subst; simpl.
      apply elem_of_app. right. apply elem_of_cons. by left.
    - unfold agrees. simpl. rewrite Ht. simpl. rewrite Z.eqb_refl. done. }
  assert (Hlen : (length (o :: rest) <= MAX_ORDERS_TO_IMPORT)%nat).
  { destruct (outcome (o :: rest) userId w)
      as [[_ H] | [(Hlen & _) | [(l1 & o' & l2 & _ & _ & _ & _ & H)
                                | (l1 & o' & l2 & _ & _ & _ & _ & _ & H)]]];
      [rewrite H in Hfirst; discriminate | exact Hlen
      | rewrite H in Hfirst; discriminate ..]. }
  rewrite import_unfold, validateOrders_unfold.
  case_bool_decide; [lia|].
  rewrite (validate_loop_duplicate parseISO startOfDay dataProviderGet _ [] o rest).
  - simpl. by rewrite app_nil_r.
  - constructor.
  - intros Hnone. by apply (no_duplicate_found parseISO startOfDay) in Hnone.
Qed.

End Properties.

Import ImportExamples MoreImportExamples.

(** The order of user-2 in [busyWorld] changes nothing for user-1. *)
Lemma import_ignores_other_users_witness :
  ordersOfUser "user-1" worldWithApple = ordersOfUser "user-1" busyWorld
  /\ fst (ImportService.import Runtime.parseISO Runtime.startOfDay
            dataProviderGet [buyMicrosoft; buyApple] "user-1" worldWithApple) =
     fst (ImportService.import Runtime.parseISO Runtime.startOfDay
            dataProviderGet [buyMicrosoft; buyApple] "user-1" busyWorld).
Proof.
  assert (H : ordersOfUser "user-1" worldWithApple =
              ordersOfUser "user-1" busyWorld) by reflexivity.
  split; [exact H|].
  exact (import_ignores_other_users Runtime.parseISO Runtime.startOfDay
           dataProviderGet _ _ _ _ H).
Defined.

(** The second of three orders names an account the persistence service
    does not find: import fails with the error of [createOrder], and the
    record of the first order stays stored. *)
Lemma import_appends_prefix_witness :
  fst (ImportService.import_fallible Runtime.parseISO Runtime.startOfDay
         dataProviderGet withoutAccount2 [buyApple; buyMicrosoft; buyApple]
         "user-1" emptyWorld) = inl (Error "No Account found")
  /\ orderTable
       (snd (ImportService.import_fallible Runtime.parseISO Runtime.startOfDay
               dataProviderGet withoutAccount2 [buyApple; buyMicrosoft; buyApple]
               "user-1" emptyWorld)) =
     [orderOf (createInput Runtime.parseISO "user-1" buyApple)].
Proof.
  assert (Hfails :
            fst (ImportService.import_fallible Runtime.parseISO Runtime.startOfDay
                   dataProviderGet withoutAccount2
                   [buyApple; buyMicrosoft; buyApple] "user-1" emptyWorld) =
            inl (Error "No Account found"))
    by (vm_compute; reflexivity).
  assert (Hvalid :
            fst (ImportService.validateOrders Runtime.parseISO Runtime.startOfDay
                   dataProviderGet [buyApple; buyMicrosoft; buyApple] "user-1"
                   emptyWorld) = inr tt)
    by (vm_compute; reflexivity).
  split; [exact Hfails|].
  destruct (import_appends_prefix Runtime.parseISO Runtime.startOfDay
              dataProviderGet withoutAccount2 [buyApple; buyMicrosoft; buyApple]
              "user-1" emptyWorld) as (k & _ & Htable & _ & Hcase).
  rewrite Hvalid, Hfails in Hcase.
  destruct Hcase as (o & wk & Ho & _ & Hrefused).
  destruct k as [|[|[|k]]]; simpl in Ho; try discriminate Ho;
    injection Ho as <-; try (vm_compute in Hrefused; discriminate Hrefused).
  exact Htable.
Defined.

(** The batch of the first import, sent again. *)
Lemma import_twice_is_rejected_witness :
  ImportService.import Runtime.parseISO Runtime.startOfDay dataProviderGet
    [buyApple; buyMicrosoft] "user-2" worldWithApple =
    (inr tt,
     snd (ImportService.import Runtime.parseISO Runtime.startOfDay
            dataProviderGet [buyApple; buyMicrosoft] "user-2" worldWithApple))
  /\ is_Some (Runtime.parseISO (date buyApple))
  /\ strictEq (fee buyApple) (fee buyApple) = true
  /\ strictEq (quantity buyApple) (quantity buyApple) = true
  /\ strictEq (unitPrice buyApple) (unitPrice buyApple) = true
  /\ fst (ImportService.import Runtime.parseISO Runtime.startOfDay
            dataProviderGet [buyApple; buyMicrosoft] "user-2"
            (snd (ImportService.import Runtime.parseISO Runtime.startOfDay
                    dataProviderGet [buyApple; buyMicrosoft] "user-2"
                    worldWithApple))) =
     inl (DuplicateOrder 0).
Proof.
  assert (H1 : ImportService.import Runtime.parseISO Runtime.startOfDay
                 dataProviderGet [buyApple; buyMicrosoft] "user-2"
                 worldWithApple =
               (inr tt,
                snd (ImportService.import Runtime.parseISO Runtime.startOfDay
                       dataProviderGet [buyApple; buyMicrosoft] "user-2"
                       worldWithApple)))
    by (vm_compute; reflexivity).
  assert (H2 : is_Some (Runtime.parseISO (date buyApple)))
    by (eexists; vm_compute; reflexivity).
  split_and!; [exact H1 | exact H2 | reflexivity | reflexivity | reflexivity |].
  rewrite (import_twice_is_rejected Runtime.parseISO Runtime.startOfDay
             dataProviderGet _ _ _ _ _ H1 H2 eq_refl eq_refl eq_refl).
  reflexivity.
Defined.

End ImportExtras.

(** * Further properties of the info service *)

Module InfoExtras.
Import InfoService InfoVocabulary InfoProperties.

Section Properties.
Variable JSON_parse : string -> option JsValue.
Variable JSON_stringify : JsValue -> string.
Variable permissions : Permissions.

Local Abbreviation getStatistics :=
  (InfoService.getStatistics JSON_parse JSON_stringify).
Local Abbreviation getSubscriptions := (InfoService.getSubscriptions JSON_parse).
Local Abbreviation get :=
  (InfoService.get JSON_parse JSON_stringify permissions).
Local Abbreviation cachedStatistics := (InfoService.cachedStatistics JSON_parse).
Local Abbreviation recomputed := (InfoService.recomputed JSON_stringify).
Local Abbreviation statisticsOutcome :=
  (InfoProperties.getStatistics_outcome JSON_parse JSON_stringify).
Local Abbreviation subscriptionsOutcome :=
  (InfoProperties.getSubscriptions_outcome JSON_parse).
Local Abbreviation getOutcome :=
  (InfoProperties.get_outcome JSON_parse JSON_stringify permissions).
Local Abbreviation calledAll cs w :=
  {| cache := cache w; calls := calls w ++ cs |}.

(** The world [getStatistics] starts from inside [get]. *)
Local Abbreviation afterReads w :=
  (called GetLastDataGathering (called PlatformFindMany w)).

(** The world [getStatistics] leaves, in its three cases. *)
Lemma getStatistics_world this (w : World) :
  snd (getStatistics this w) =
  if ENABLE_FEATURE_STATISTICS (configurationService this) then
    match cachedStatistics w with
    | Some _ => called (CacheGet CACHE_KEY_STATISTICS) w
    | None => recomputed this w
    end
  else w.
Proof.
  destruct (ENABLE_FEATURE_STATISTICS (configurationService this)) eqn:Hflag.
  - rewrite statisticsOutcome by done. by destruct (cachedStatistics w).
  - by rewrite (getStatistics_disabled JSON_parse JSON_stringify).
Qed.

(** The world [getSubscriptions] leaves: at most the property read. *)
Lemma getSubscriptions_world this (w : World) :
  snd (getSubscriptions this w) =
  if ENABLE_FEATURE_SUBSCRIPTION (configurationService this)
  then called (PropertyFindUnique "STRIPE_CONFIG") w
  else w.
Proof.
  rewrite subscriptionsOutcome.
  destruct (ENABLE_FEATURE_SUBSCRIPTION (configurationService this)); [|done].
  destruct (property this !! "STRIPE_CONFIG") as [value|]; [|done].
  by destruct (JSON_parse value).
Qed.

(** The world [get] leaves is the one its two sub-routines leave, whether
    it returns or throws. *)
Lemma get_world this (w : World) :
  snd (get this w) =
  snd (getSubscriptions this (snd (getStatistics this (afterReads w)))).
Proof.
  rewrite getOutcome. cbv zeta.
  destruct (getStatistics_returns JSON_parse JSON_stringify this (afterReads w))
    as (statistics & w1 & ->). simpl.
  by destruct (getSubscriptions this w1) as [[e|subscriptions] w2].
Qed.

(** X8. The info service writes the cache under the statistics key only:
    after [getStatistics], and after [get], whether it returns or throws,
    every other entry of the cache is as before. *)
Theorem cache_written_under_statistics_key_only this (w : World) :
  delete CACHE_KEY_STATISTICS (cache (snd (getStatistics this w))) =
    delete CACHE_KEY_STATISTICS (cache w)
  /\ delete CACHE_KEY_STATISTICS (cache (snd (get this w))) =
     delete CACHE_KEY_STATISTICS (cache w).
Proof.
  assert (Hstatistics : forall w0 : World,
            delete CACHE_KEY_STATISTICS (cache (snd (getStatistics this w0))) =
            delete CACHE_KEY_STATISTICS (cache w0)).
  { intros w0. rewrite getStatistics_world.
    destruct (ENABLE_FEATURE_STATISTICS (configurationService this)); [|done].
    destruct (cachedStatistics w0); [done|]. simpl.
    apply delete_insert_eq. }
  split; [apply Hstatistics|].
  rewrite get_world, getSubscriptions_world.
  destruct (ENABLE_FEATURE_SUBSCRIPTION (configurationService this)); simpl;
    by rewrite Hstatistics.
Qed.

(** X9. With the statistics feature enabled, [getStatistics] always leaves
    an entry under the statistics key: the one it found, when that parsed
    to a truthy value, and else the serialised statistics it computed. *)
Theorem getStatistics_leaves_entry this (w : World) :
  ENABLE_FEATURE_STATISTICS (configurationService this) = true ->
  cache (snd (getStatistics this w)) !! CACHE_KEY_STATISTICS =
    match cachedStatistics w with
    | Some _ => cache w !! CACHE_KEY_STATISTICS
    | None => Some (JSON_stringify (freshStatistics this))
    end
  /\ is_Some (cache (snd (getStatistics this w)) !! CACHE_KEY_STATISTICS).
Proof.
  intros Hflag. rewrite getStatistics_world, Hflag.
  unfold InfoService.cachedStatistics.
  destruct (cache w !! CACHE_KEY_STATISTICS) as [text|] eqn:Htext; simpl.
  - destruct (JSON_parse text) as [statistics|]; simpl;
      [destruct (truthy statistics); simpl|];
      rewrite ?Htext, ?lookup_insert_eq; eauto.
  - rewrite lookup_insert_eq. eauto.
Qed.

(** X10. A second call of [getStatistics] answers as the first, whatever
    the cache held before the first: with the feature enabled, and
    [JSON.parse] reading back what [JSON.stringify] writes for the computed
    statistics, the second call returns the same value, makes the cache
    read and no other call, and leaves the cache as the first call left
    it. *)
Theorem getStatistics_second_call this (w : World) :
  ENABLE_FEATURE_STATISTICS (configurationService this) = true ->
  JSON_parse (JSON_stringify (freshStatistics this)) = Some (freshStatistics this) ->
  getStatistics this (snd (getStatistics this w)) =
    (fst (getStatistics this w),
     called (CacheGet CACHE_KEY_STATISTICS) (snd (getStatistics this w))).
Proof.
  intros Hflag Hroundtrip.
  rewrite (statisticsOutcome this w) by done.
  destruct (cachedStatistics w) as [statistics|] eqn:Hcached; simpl.
  - rewrite statisticsOutcome by done.
    unfold InfoService.cachedStatistics in *. simpl. by rewrite Hcached.
  - rewrite statisticsOutcome by done.
    unfold InfoService.cachedStatistics. simpl.
    by rewrite lookup_insert_eq, Hroundtrip.
Qed.


(** After a call with the feature enabled, in any world holding the cache
    that call left, the next call is a hit on the first call's answer,
    whatever the collaborators answer by then. *)
Lemma getStatistics_hit_after this1 this2 (w w2 : World) :
  ENABLE_FEATURE_STATISTICS (configurationService this1) = true ->
  ENABLE_FEATURE_STATISTICS (configurationService this2) = true ->
  JSON_parse (JSON_stringify (freshStatistics this1)) = Some (freshStatistics this1) ->
  cache w2 = cache (snd (getStatistics this1 w)) ->
  getStatistics this2 w2 =
    (fst (getStatistics this1 w), called (CacheGet CACHE_KEY_STATISTICS) w2).
Proof.
  intros Hflag1 Hflag2 Hroundtrip Hcache.
  rewrite (statisticsOutcome this2 w2) by done.
  rewrite (statisticsOutcome this1 w) in * by done.
  unfold InfoService.cachedStatistics in *. rewrite Hcache.
  destruct (cache w !! CACHE_KEY_STATISTICS) as [text|] eqn:Htext; simpl.
  - destruct (JSON_parse text) as [statistics|] eqn:Hparse; simpl.
    + destruct (truthy statistics) eqn:Htruthy; simpl.
      * by rewrite Htext, Hparse, Htruthy.
      * by rewrite lookup_insert_eq, Hroundtrip.
    + by rewrite lookup_insert_eq, Hroundtrip.
  - by rewrite lookup_insert_eq, Hroundtrip.
Qed.

Lemma get_cache this (w : World) :
  cache (snd (get this w)) = cache (snd (getStatistics this (afterReads w))).
Proof.
  rewrite get_world, getSubscriptions_world.
  by destruct (ENABLE_FEATURE_SUBSCRIPTION (configurationService this)).
Qed.

(** The calls of one [get]. *)
Lemma get_calls this (w : World) :
  calls (snd (get this w)) =
  calls (snd (getStatistics this (afterReads w)))
  ++ (if ENABLE_FEATURE_SUBSCRIPTION (configurationService this)
      then [PropertyFindUnique "STRIPE_CONFIG"] else []).
Proof.
  rewrite get_world, getSubscriptions_world.
  destruct (ENABLE_FEATURE_SUBSCRIPTION (configurationService this)); simpl;
    by rewrite ?app_nil_r.
Qed.

(** X11. Asked again, [get] serves the statistics of the first request
    without running a counter, whatever the collaborators answer by then.
    With the statistics feature enabled at both requests, and [JSON.parse]
    reading back what [JSON.stringify] wrote for the statistics computed at
    the first, a [get] that follows another makes no database count and no
    GitHub request, and the statistics of the info object it returns are
    those of the first; nothing is said of the other fields, which are read
    anew and may differ, as the demo token signed at each request. *)
Theorem get_second_call this1 this2 (w : World) :
  ENABLE_FEATURE_STATISTICS (configurationService this1) = true ->
  ENABLE_FEATURE_STATISTICS (configurationService this2) = true ->
  JSON_parse (JSON_stringify (freshStatistics this1)) = Some (freshStatistics this1) ->
  (exists cs,
     calls (snd (get this2 (snd (get this1 w)))) = calls (snd (get this1 w)) ++ cs
     /\ List.filter isCounterCall cs = [])
  /\ (forall info1 info2,
        fst (get this1 w) = inr info1 ->
        fst (get this2 (snd (get this1 w))) = inr info2 ->
        statistics info2 = statistics info1).
Proof.
  intros Hflag1 Hflag2 Hroundtrip.
  set (w1 := snd (get this1 w)).
  assert (Hcache : cache (afterReads w1) =
                   cache (snd (getStatistics this1 (afterReads w)))).
  { simpl. apply get_cache. }
  pose proof (getStatistics_hit_after this1 this2 (afterReads w) (afterReads w1)
                Hflag1 Hflag2 Hroundtrip Hcache) as Hhit.
  split.
  - rewrite (get_calls this2 w1), Hhit. simpl.
    eexists. rewrite <- !app_assoc. split; [reflexivity|]. simpl.
    by destruct (ENABLE_FEATURE_SUBSCRIPTION (configurationService this2)).
  - intros info1 info2.
    rewrite (getOutcome this2 w1), (getOutcome this1 w). cbv zeta.
    rewrite Hhit.
    destruct (getStatistics this1 (afterReads w)) as [[e|found] w0]; [done|].
    simpl.
    destruct (getSubscriptions this2 _) as [[e2|s2] w2'];
      destruct (getSubscriptions this1 w0) as [[e0|s0] w0'];
      simpl; try discriminate.
    by intros [= <-] [= <-].
Qed.

(** X12. With the statistics feature disabled, [get] leaves the cache
    alone and runs no counter: its calls are the platform query, the read
    of the last data gathering and, with the subscription feature, the
    property read, and the statistics of a returned info object are
    [undefined]. *)
Theorem get_without_statistics this (w : World) :
  ENABLE_FEATURE_STATISTICS (configurationService this) = false ->
  cache (snd (get this w)) = cache w
  /\ calls (snd (get this w)) =
     calls w ++ PlatformFindMany :: GetLastDataGathering
     :: (if ENABLE_FEATURE_SUBSCRIPTION (configurationService this)
         then [PropertyFindUnique "STRIPE_CONFIG"] else [])
  /\ forall info, fst (get this w) = inr info -> statistics info = None.
Proof.
  intros Hflag. split_and!.
  - by rewrite get_cache, getStatistics_world, Hflag.
  - rewrite get_calls, getStatistics_world, Hflag. simpl.
    by rewrite <- !app_assoc.
  - intros info. rewrite getOutcome. cbv zeta.
    rewrite (getStatistics_disabled JSON_parse JSON_stringify) by done.
    destruct (getSubscriptions this _) as [[e|subscriptions] w']; [done|].
    simpl. by intros [= <-].
Qed.

(** X13. The permissions of a returned info object are the tags of the
    enabled feature flags, each once, in the order blog, import, social
    login, statistics, subscription. *)
Theorem get_permissions this (w w' : World) info :
  get this w = (inr info, w') ->
  globalPermissions info =
    map (permissionOf permissions)
      (List.filter (flagEnabled (configurationService this)) allFlags).
Proof.
  rewrite getOutcome. cbv zeta.
  destruct (getStatistics this _) as [[e|statistics] w1]; [done|].
  destruct (getSubscriptions this w1) as [[e|subscriptions] w2]; [done|].
  intros [= <- _]. simpl.
  destruct (configurationService this)
    as [blog import_ social statistics_ subscription key]. simpl.
  by destruct blog, import_, social, statistics_, subscription.
Qed.

(** X14. In a returned info object the optional fields follow their
    flags: statistics are present exactly with the statistics feature, the
    Stripe key and the subscriptions exactly with the subscription feature,
    the key being the configured one; the other fields are what the
    collaborators answered, the demo token being the signature of the demo
    user id. *)
Theorem get_fields this (w w' : World) info :
  get this w = (inr info, w') ->
  (is_Some (statistics info)
   <-> ENABLE_FEATURE_STATISTICS (configurationService this) = true)
  /\ (is_Some (subscriptions info)
      <-> ENABLE_FEATURE_SUBSCRIPTION (configurationService this) = true)
  /\ stripePublicKey info =
     (if ENABLE_FEATURE_SUBSCRIPTION (configurationService this)
      then Some (STRIPE_PUBLIC_KEY (configurationService this)) else None)
  /\ platforms info = platform_findMany this
  /\ currencies info = exchangeRateDataService_getCurrencies this
  /\ demoAuthToken info = jwtService_sign this DEMO_USER_ID
  /\ lastDataGathering info = dataGatheringService_getLastDataGathering this
  /\ primaryDataSource info = dataProviderService_getPrimaryDataSource this.
Proof.
  rewrite getOutcome. cbv zeta.
  destruct (getStatistics this _) as [[e|statistics] w1] eqn:Hstat; [done|].
  destruct (getSubscriptions this w1) as [[e|subscriptions] w2] eqn:Hsub;
    [done|].
  intros [= <- _]. simpl. split_and!; try reflexivity.
  - destruct (ENABLE_FEATURE_STATISTICS (configurationService this)) eqn:Hflag.
    + rewrite statisticsOutcome in Hstat by done.
      destruct (cachedStatistics _); injection Hstat as <- _; split; eauto.
    + rewrite (getStatistics_disabled JSON_parse JSON_stringify) in Hstat
        by done.
      injection Hstat as <- _. split; [by intros [? ?] | done].
  - rewrite subscriptionsOutcome in Hsub.
    destruct (ENABLE_FEATURE_SUBSCRIPTION (configurationService this)).
    + destruct (property this !! "STRIPE_CONFIG") as [value|];
        [destruct (JSON_parse value)|]; simplify_eq; split; eauto.
    + injection Hsub as <- _. split; [by intros [? ?] | done].
Qed.

(** X15. [get] throws exactly when the subscription feature is enabled and
    the stored Stripe configuration does not parse. What it throws then is
    the [SyntaxError] of [JSON.parse], after the statistics sub-routine has
    run: its calls and its cache write stay. *)
Theorem get_throws_iff this (w : World) :
  ((exists e, fst (get this w) = inl e)
   <-> ENABLE_FEATURE_SUBSCRIPTION (configurationService this) = true
       /\ exists value,
            property this !! "STRIPE_CONFIG" = Some value
            /\ JSON_parse value = None)
  /\ forall e,
       fst (get this w) = inl e ->
       get this w =
         (inl (SyntaxError "Unexpected token in JSON"),
          called (PropertyFindUnique "STRIPE_CONFIG")
            (snd (getStatistics this (afterReads w)))).
Proof.
  rewrite getOutcome. cbv zeta.
  destruct (getStatistics_returns JSON_parse JSON_stringify this (afterReads w))
    as (statistics & w1 & ->). simpl.
  rewrite subscriptionsOutcome.
  destruct (ENABLE_FEATURE_SUBSCRIPTION (configurationService this)).
  - destruct (property this !! "STRIPE_CONFIG") as [value|].
    + destruct (JSON_parse value) eqn:Hparse; simpl.
      * split; [|by intros e [=]]. split; [by intros [e [=]]|].
        intros [_ (value' & [= <-] & Hnone)]. congruence.
      * split; [|done]. split; [eauto|]. intros _. eauto.
    + simpl. split; [|by intros e [=]]. split; [by intros [e [=]]|].
      by intros [_ (value & [=] & _)].
  - simpl. split; [|by intros e [=]]. split; [by intros [e [=]]|].
    by intros [[=] _].
Qed.

(** X16. A request that GitHub answers is not logged, with one exception.
    The contributors count is the length of an array body and [undefined]
    for a [null] body, without a log entry in either case; the stargazers
    count is the [stargazers_count] property of an object body; a [null]
    repository body makes the destructuring throw, which is logged as a
    [TypeError] and yields [undefined]. *)
Theorem gitHub_answers this (w : World) :
  (forall body,
     httpGetJson this gitHubContributorsUrl = inr body ->
     countGitHubContributors this w =
       (inr (optionalLength body), called (HttpGet gitHubContributorsUrl) w))
  /\ (forall items,
        optionalLength (JArray items) = Some (JNumber (numberOfNat (length items))))
  /\ optionalLength JNull = None
  /\ (forall props,
        httpGetJson this gitHubRepositoryUrl = inr (JObject props) ->
        countGitHubStargazers this w =
          (inr (ownProperty "stargazers_count" props),
           called (HttpGet gitHubRepositoryUrl) w))
  /\ (httpGetJson this gitHubRepositoryUrl = inr JNull ->
      countGitHubStargazers this w =
        (inr None,
         calledAll
           [HttpGet gitHubRepositoryUrl;
            LoggerError
              (TypeError "Cannot destructure property 'stargazers_count' of null")]
           w)).
Proof.
  split_and!; [| done | done | |].
  - intros body Hbody. rewrite countGitHubContributors_outcome.
    unfold gitHubContributors, gitHubContributorsCalls. by rewrite Hbody.
  - intros props Hbody. rewrite countGitHubStargazers_outcome.
    unfold gitHubStargazers, gitHubStargazersCalls. by rewrite Hbody.
  - intros Hbody. rewrite countGitHubStargazers_outcome.
    unfold gitHubStargazers, gitHubStargazersCalls. by rewrite Hbody.
Qed.

(** X17. Recomputed statistics carry the four user counts under their
    names, each the count of its window: active users of the last 1, 7 and
    30 days and new users of the last 30 days; the two GitHub fields hold
    what the GitHub counters yielded, and are absent when that is
    [undefined]. *)
Theorem recomputed_statistics_fields this (w : World) :
  ENABLE_FEATURE_STATISTICS (configurationService this) = true ->
  cachedStatistics w = None ->
  exists props,
    fst (getStatistics this w) = inr (Some (JObject props))
    /\ ownProperty "activeUsers1d" props =
       Some (JNumber (user_count this (AnalyticsUpdatedAfterDaysAgo 1)))
    /\ ownProperty "activeUsers7d" props =
       Some (JNumber (user_count this (AnalyticsUpdatedAfterDaysAgo 7)))
    /\ ownProperty "activeUsers30d" props =
       Some (JNumber (user_count this (AnalyticsUpdatedAfterDaysAgo 30)))
    /\ ownProperty "newUsers30d" props =
       Some (JNumber (user_count this (CreatedAfterDaysAgo 30)))
    /\ ownProperty "gitHubContributors" props = gitHubContributors this
    /\ ownProperty "gitHubStargazers" props = gitHubStargazers this
    /\ (4 <= length props <= 6)%nat.
Proof.
  intros Hflag Hmiss. rewrite statisticsOutcome, Hmiss by done.
  eexists. split; [reflexivity|].
  destruct (gitHubContributors this), (gitHubStargazers this); simpl;
    split_and!; (reflexivity || lia).
Qed.

End Properties.

(** ** The theorems at work on the example data *)

Import InfoExamples.

Local Abbreviation runStatistics :=
  (InfoService.getStatistics Runtime.JSON_parse Runtime.JSON_stringify).
Local Abbreviation runGet :=
  (InfoService.get Runtime.JSON_parse Runtime.JSON_stringify permissions).

Lemma deployment_round_trip :
  Runtime.JSON_parse (Runtime.JSON_stringify (freshStatistics deployment)) =
  Some (freshStatistics deployment).
Proof. vm_compute. reflexivity. Qed.

Lemma deployment_returns :
  runGet deployment coldWorld =
  (inr infoWithSubscription, snd (runGet deployment coldWorld)).
Proof. vm_compute. reflexivity. Qed.

(** A cached text that is no JSON is replaced by fresh statistics. *)
Lemma getStatistics_leaves_entry_witness :
  ENABLE_FEATURE_STATISTICS (configurationService deployment) = true
  /\ cache (snd (runStatistics deployment (cachedWorld "{oops")))
       !! CACHE_KEY_STATISTICS =
     Some (Runtime.JSON_stringify deploymentStatistics).
Proof.
  split; [reflexivity|].
  rewrite (proj1 (getStatistics_leaves_entry Runtime.JSON_parse
                    Runtime.JSON_stringify deployment (cachedWorld "{oops")
                    eq_refl)).
  vm_compute. reflexivity.
Defined.

Lemma getStatistics_second_call_witness :
  ENABLE_FEATURE_STATISTICS (configurationService deployment) = true
  /\ Runtime.JSON_parse (Runtime.JSON_stringify (freshStatistics deployment)) =
     Some (freshStatistics deployment)
  /\ fst (runStatistics deployment
            (snd (runStatistics deployment (cachedWorld "{oops")))) =
     inr (Some deploymentStatistics).
Proof.
  split; [reflexivity|]. split; [exact deployment_round_trip|].
  rewrite (getStatistics_second_call Runtime.JSON_parse Runtime.JSON_stringify
             deployment (cachedWorld "{oops") eq_refl deployment_round_trip).
  vm_compute. reflexivity.
Defined.

(** The second request finds GitHub out of reach and is served the
    statistics of the first, stargazers included. *)
Lemma get_second_call_witness :
  ENABLE_FEATURE_STATISTICS (configurationService deployment) = true
  /\ ENABLE_FEATURE_STATISTICS (configurationService isolatedDeployment) = true
  /\ Runtime.JSON_parse (Runtime.JSON_stringify (freshStatistics deployment)) =
     Some (freshStatistics deployment)
  /\ fst (runGet deployment coldWorld) = inr infoWithSubscription
  /\ exists info2,
       fst (runGet isolatedDeployment (snd (runGet deployment coldWorld))) =
         inr info2
       /\ statistics info2 = Some deploymentStatistics.
Proof.
  assert (H1 : fst (runGet deployment coldWorld) = inr infoWithSubscription)
    by (vm_compute; reflexivity).
  split_and!; [reflexivity | reflexivity | exact deployment_round_trip
              | exact H1 |].
  destruct (fst (runGet isolatedDeployment (snd (runGet deployment coldWorld))))
    as [e|info2] eqn:H2; [vm_compute in H2; discriminate H2|].
  exists info2. split; [reflexivity|].
  exact (proj2 (get_second_call Runtime.JSON_parse Runtime.JSON_stringify
                  permissions deployment isolatedDeployment coldWorld
                  eq_refl eq_refl deployment_round_trip) _ _ H1 H2).
Defined.

Lemma get_without_statistics_witness :
  ENABLE_FEATURE_STATISTICS
    (configurationService (withFlag FeatureStatistics false deployment)) = false
  /\ cache (snd (runGet (withFlag FeatureStatistics false deployment)
                   (cachedWorld "{oops"))) =
     cache (cachedWorld "{oops")
  /\ calls (snd (runGet (withFlag FeatureStatistics false deployment)
                   (cachedWorld "{oops"))) =
     [PlatformFindMany; GetLastDataGathering; PropertyFindUnique "STRIPE_CONFIG"].
Proof.
  split; [reflexivity|].
  destruct (get_without_statistics Runtime.JSON_parse Runtime.JSON_stringify
              permissions (withFlag FeatureStatistics false deployment)
              (cachedWorld "{oops") eq_refl) as (Hcache & Hcalls & _).
  split; [exact Hcache | exact Hcalls].
Defined.

Lemma get_permissions_witness :
  runGet deployment coldWorld =
    (inr infoWithSubscription, snd (runGet deployment coldWorld))
  /\ globalPermissions infoWithSubscription =
     ["enableBlog"; "enableImport"; "enableSocialLogin"; "enableStatistics";
      "enableSubscription"].
Proof.
  split; [exact deployment_returns|].
  exact (get_permissions Runtime.JSON_parse Runtime.JSON_stringify permissions
           deployment coldWorld _ _ deployment_returns).
Defined.

Lemma get_fields_witness :
  runGet deployment coldWorld =
    (inr infoWithSubscription, snd (runGet deployment coldWorld))
  /\ stripePublicKey infoWithSubscription = Some "pk_live_example"
  /\ demoAuthToken infoWithSubscription =
     "jwt.9b112b4d-3b7d-4bad-9bdd-3b0f7b4dac2f".
Proof.
  split; [exact deployment_returns|].
  destruct (get_fields Runtime.JSON_parse Runtime.JSON_stringify permissions
              deployment coldWorld _ _ deployment_returns)
    as (_ & _ & Hkey & _ & _ & Htoken & _).
  split; [exact Hkey | exact Htoken].
Defined.

Lemma recomputed_statistics_fields_witness :
  ENABLE_FEATURE_STATISTICS (configurationService isolatedDeployment) = true
  /\ InfoService.cachedStatistics Runtime.JSON_parse coldWorld = None
  /\ exists props,
       fst (runStatistics isolatedDeployment coldWorld) =
         inr (Some (JObject props))
       /\ ownProperty "activeUsers7d" props = Some (JNumber 14%float)
       /\ ownProperty "newUsers30d" props = Some (JNumber 30%float)
       /\ ownProperty "gitHubStargazers" props = None.
Proof.
  split; [reflexivity|]. split; [reflexivity|].
  destruct (recomputed_statistics_fields Runtime.JSON_parse
              Runtime.JSON_stringify isolatedDeployment coldWorld
              eq_refl eq_refl)
    as (props & Hreturned & _ & H7 & _ & Hnew & _ & Hstars & _).
  exists props. split_and!; [exact Hreturned | exact H7 | exact Hnew | exact Hstars].
Defined.

End InfoExtras.
